(** * A shallow embedding of the RAG service (app/document_loader.py,
      app/vector_store.py, app/rag_chain.py, app/main.py and the script
      delete_pinecone.py) and its verified properties.

    The Python modules keep their state in module-level globals and talk to
    three outside parties: the OpenAI API, the Pinecone index and the
    LangChain text-splitter library.  The embedding threads the globals
    through a state-and-exception monad, keeps Python list objects in a
    store addressed by object identity (so that [history] in [query] really
    is an alias of the list held by [_session_histories]), and takes the
    outside parties, and the machine the process runs on, as the fields of
    three interfaces. *)

From Stdlib Require Import ZArith String Ascii.
From stdpp Require Import gmap strings list fin_maps pretty.

(** ** Python values *)

(** A raised Python exception. *)
Inductive exn : Type := Exception (description : string).

(** The outcome of a call: a value, or a raised exception. *)
Inductive res (A : Type) : Type :=
| Ok (a : A)
| Raise (e : exn).
Arguments Ok {A} a.
Arguments Raise {A} e.

(** [langchain_core.documents.Document]. *)
Record Document := {
  page_content : string;
  metadata : gmap string string }.

(** A prompt or history entry, the tuple [(role, text)]. *)
Definition message : Type := string * string.

(** The response of [index.describe_index_stats()], read with [.get]:
    either key may be missing.  [namespaces] keeps the keys in the order the
    dictionary iterates them, each with its vector count. *)
Record Stats := {
  namespaces : option (list (string * Z));
  total_vector_count : option Z }.

(** One entry of the [sources] list of a query result. *)
Record Source := {
  source : string;
  type : string;
  content_preview : string }.

(** The dictionary returned by [delete_all_records]. *)
Record Deletion := {
  deleted : bool;
  previous_vector_count : Z }.

(** Every call that leaves the process, in the order issued. *)
Inductive event : Type :=
| EvOpenAIEmbeddings
| EvPinecone
| EvPineconeVectorStore (index_name : string)
| EvChatOpenAI
| EvAddDocuments (documents : list Document)
| EvAsRetriever (k : Z)
| EvSimilaritySearch (query : string) (k : Z)
| EvRetrieverInvoke (question : string)
| EvChainInvoke (messages : list message) (context question : string)
| EvIndex (index_name : string)
| EvDescribeIndexStats
| EvDelete (namespace : string).

(** Python string helpers. *)
Definition newline : string := String "010"%char EmptyString.

(** The text of a document can hold any character.  A character beyond
    ASCII is held as the bytes of its UTF-8 encoding, the way a string
    literal holds it: there a byte of the form 10xxxxxx continues a
    character and every other byte starts one. *)
Definition continues (c : ascii) : bool :=
  let n := nat_of_ascii c in (128 <=? n) && (n <? 192).

(** [len(s)]: the number of characters, not of bytes. *)
Fixpoint py_len (s : string) : nat :=
  match s with
  | EmptyString => 0
  | String c rest => (if continues c then 0 else 1) + py_len rest
  end.

(** [s[:n]]: the first [n] characters, each with all of its bytes. *)
Fixpoint py_prefix (n : nat) (s : string) : string :=
  match s with
  | EmptyString => EmptyString
  | String c rest =>
      if continues c then String c (py_prefix n rest)
      else match n with
           | O => EmptyString
           | S n' => String c (py_prefix n' rest)
           end
  end.

(** [s] is empty or begins with the first byte of a character. *)
Definition at_character (s : string) : Prop :=
  match s with
  | EmptyString => True
  | String c _ => continues c = false
  end.

(** [sep.join(parts)] *)
Definition join (sep : string) (parts : list string) : string :=
  String.concat sep parts.

(** Truthiness of a [str]: non-empty. *)
Definition truthy (s : string) : bool :=
  match s with EmptyString => false | String _ _ => true end.

(** [l[-n:]] for [n > 0]: the last [n] elements, the whole list when it is
    shorter. *)
Definition last_n {A} (n : nat) (l : list A) : list A :=
  drop (length l - n) l.

(** File names are taken a character per byte, each a code point below
    256.  [c.lower()]: the letters A-Z and the capital letters of the upper
    half (192-222, the sign 215 apart) move 32 up; every other character
    stays. *)
Definition lower_char (c : ascii) : ascii :=
  let n := nat_of_ascii c in
  if (65 <=? n) && (n <=? 90) then ascii_of_nat (n + 32)
  else if (192 <=? n) && (n <=? 222) && negb (n =? 215) then ascii_of_nat (n + 32)
  else c.

(** [s.lower()] *)
Fixpoint lower (s : string) : string :=
  match s with
  | EmptyString => EmptyString
  | String c rest => String (lower_char c) (lower rest)
  end.

(** [c.isspace()] for a character below 128. *)
Definition isspace (c : ascii) : bool :=
  let n := nat_of_ascii c in
  ((9 <=? n) && (n <=? 13)) || ((28 <=? n) && (n <=? 32)).

(** The white space beyond ASCII, each character with the bytes of its
    encoding: U+0085 (C2 85), U+00A0 (C2 A0), U+1680 (E1 9A 80), U+2000 to
    U+200A (E2 80 80 to E2 80 8A), U+2028, U+2029 and U+202F (E2 80 A8, A9,
    AF), U+205F (E2 81 9F) and U+3000 (E3 80 80).  [partial] tells which
    first bytes of such a character have been read. *)
Inductive partial : Type :=
| Whole | C2 | E1 | E1_9A | E2 | E2_80 | E2_81 | E3 | E3_80.

(** [s] completes the character begun as [seen] tells, and every character
    of it is white space. *)
Fixpoint only_space (seen : partial) (s : string) : bool :=
  match s with
  | EmptyString => match seen with Whole => true | _ => false end
  | String c rest =>
      let n := nat_of_ascii c in
      match seen with
      | Whole =>
          if isspace c then only_space Whole rest
          else if n =? 194 then only_space C2 rest
          else if n =? 225 then only_space E1 rest
          else if n =? 226 then only_space E2 rest
          else if n =? 227 then only_space E3 rest
          else false
      | C2 => ((n =? 133) || (n =? 160)) && only_space Whole rest
      | E1 => (n =? 154) && only_space E1_9A rest
      | E1_9A => (n =? 128) && only_space Whole rest
      | E2 =>
          if n =? 128 then only_space E2_80 rest
          else if n =? 129 then only_space E2_81 rest
          else false
      | E2_80 =>
          (((128 <=? n) && (n <=? 138)) || (n =? 168) || (n =? 169) || (n =? 175))
            && only_space Whole rest
      | E2_81 => (n =? 159) && only_space Whole rest
      | E3 => (n =? 128) && only_space E3_80 rest
      | E3_80 => (n =? 128) && only_space Whole rest
      end
  end.

(** Truthiness of [s.strip()]: some character is not white space. *)
Definition strip_truthy (s : string) : bool := negb (only_space Whole s).

(** [c in s] for a character [c]. *)
Fixpoint has_char (c : ascii) (s : string) : bool :=
  match s with
  | EmptyString => false
  | String d rest => if decide (d = c) then true else has_char c rest
  end.

(** [s.rsplit(c, 1)] when [c] is in [s]: what is before the last [c], and
    what is after it. *)
Fixpoint rsplit1 (c : ascii) (s : string) : option (string * string) :=
  match s with
  | EmptyString => None
  | String d rest =>
      match rsplit1 c rest with
      | Some (before, after) => Some (String d before, after)
      | None => if decide (d = c) then Some (EmptyString, rest) else None
      end
  end.

(** [os.path.basename(p)], with POSIX paths: what follows the last slash. *)
Definition basename (p : string) : string :=
  match rsplit1 "/" p with
  | Some (_, name) => name
  | None => p
  end.

Fixpoint all_dots (s : string) : bool :=
  match s with
  | EmptyString => true
  | String c rest => if decide (c = "."%char) then all_dots rest else false
  end.

(** [os.path.splitext(p)], with POSIX paths: the extension starts at the
    last dot of the last path component, unless only dots precede it there. *)
Definition splitext (p : string) : string * string :=
  let '(dir, name) :=
    match rsplit1 "/" p with
    | Some (d, n) => (d +:+ "/", n)
    | None => ("", p)
    end in
  match rsplit1 "." name with
  | Some (stem, ext) =>
      if all_dots stem then (p, "") else (dir +:+ stem, "." +:+ ext)
  | None => (p, "")
  end.

(** [s.endswith("/")] *)
Fixpoint ends_with_slash (s : string) : bool :=
  match s with
  | EmptyString => false
  | String c EmptyString => if decide (c = "/"%char) then true else false
  | String _ rest => ends_with_slash rest
  end.

(** [os.path.join(a, b)], with POSIX paths. *)
Definition path_join (a b : string) : string :=
  match b with
  | String "/" _ => b
  | _ => if decide (a = "") then b
         else if ends_with_slash a then a +:+ b else a +:+ "/" +:+ b
  end.

(** ** The state-and-exception monad

    A raised exception keeps every state change made before it, as in
    Python. *)
Definition ST (S A : Type) : Type := S -> S * res A.

Definition ret {S A} (a : A) : ST S A := fun s => (s, Ok a).

Definition bind {S A B} (m : ST S A) (k : A -> ST S B) : ST S B :=
  fun s => match m s with
           | (s', Ok a) => k a s'
           | (s', Raise e) => (s', Raise e)
           end.

Definition gets {S A} (f : S -> A) : ST S A := fun s => (s, Ok (f s)).
Definition modify {S} (f : S -> S) : ST S unit := fun s => (f s, Ok tt).

Notation "x <- c1 ;; c2" := (bind c1 (fun x => c2))
  (at level 100, c1 at next level, right associativity).
Notation "c1 ;; c2" := (bind c1 (fun _ => c2))
  (at level 100, right associativity).

(** ** The outside parties *)

(** The OpenAI and Pinecone clients and the process environment.  [World]
    is whatever state they hold; every operation may change it and may
    raise. *)
Class External := {
  World : Type;
  Pinecone : Type;
  Index : Type;
  OpenAIEmbeddings : Type;
  PineconeVectorStore : Type;
  Retriever : Type;
  ChatOpenAI : Type;
  (* os.getenv(name) *)
  getenv : string -> World -> option string;
  (* OpenAIEmbeddings(model=, openai_api_key=) *)
  OpenAIEmbeddings_new : string -> option string -> World -> World * res OpenAIEmbeddings;
  (* Pinecone(api_key=) *)
  Pinecone_new : option string -> World -> World * res Pinecone;
  (* PineconeVectorStore(index_name=, embedding=, pinecone_api_key=) *)
  PineconeVectorStore_new :
    string -> OpenAIEmbeddings -> option string -> World -> World * res PineconeVectorStore;
  (* ChatOpenAI(model=, temperature=0.7, openai_api_key=) *)
  ChatOpenAI_new : string -> option string -> World -> World * res ChatOpenAI;
  (* vector_store.add_documents(documents) *)
  vs_add_documents : PineconeVectorStore -> list Document -> World -> World * res (list string);
  (* vector_store.as_retriever(search_kwargs={"k": k}) *)
  vs_as_retriever : PineconeVectorStore -> Z -> World -> World * res Retriever;
  (* vector_store.similarity_search(query, k=k) *)
  vs_similarity_search :
    PineconeVectorStore -> string -> Z -> World -> World * res (list Document);
  (* retriever.invoke(question) *)
  retriever_invoke : Retriever -> string -> World -> World * res (list Document);
  (* (ChatPromptTemplate.from_messages(messages) | llm | StrOutputParser())
       .invoke({"context": context, "question": question}) *)
  chain_invoke :
    ChatOpenAI -> list message -> string -> string -> World -> World * res string;
  (* pc.Index(index_name) *)
  pc_Index : Pinecone -> string -> World -> World * res Index;
  (* index.describe_index_stats() *)
  index_describe_index_stats : Index -> World -> World * res Stats;
  (* index.delete(delete_all=True, namespace=namespace) *)
  index_delete_all : Index -> string -> World -> World * res unit }.

(** [langchain_text_splitters]: the constructor of
    [RecursiveCharacterTextSplitter] (chunk size, chunk overlap, separators;
    the length function is [len]) and its [split_documents].  Neither touches
    anything outside its arguments; either may raise. *)
Class TextSplitters := {
  Splitter : Type;
  RecursiveCharacterTextSplitter : Z -> Z -> list string -> res Splitter;
  split_documents : Splitter -> list Document -> res (list Document) }.

(** The machine the process runs on: its disk, the three document parsers
    that read from it, the upload directory, and the helpers the web layer
    takes from its libraries.  A parser returns what the loops of the loaders
    go through, or raises. *)
Class Host := {
  Machine : Type;
  Blob : Type;
  (* os.path.join(os.path.dirname(__file__), "..", "uploads") *)
  UPLOAD_FOLDER : string;
  (* the order in which this process iterates the set ALLOWED_EXTENSIONS *)
  allowed_extensions_order : list string;
  (* werkzeug.utils.secure_filename(name) *)
  secure_filename : string -> string;
  (* file.save(path) *)
  file_save : Blob -> string -> Machine -> Machine * res unit;
  (* os.remove(path) *)
  os_remove : string -> Machine -> Machine * res unit;
  (* str(uuid.uuid4()) *)
  uuid4 : Machine -> Machine * string;
  (* [page.extract_text() for page in PdfReader(path).pages] *)
  pdf_page_texts : string -> Machine -> res (list (option string));
  (* [paragraph.text for paragraph in DocxDocument(path).paragraphs] *)
  docx_paragraph_texts : string -> Machine -> res (list string);
  (* load_workbook(path, data_only=True): for each name of workbook.sheetnames,
     the rows of sheet.iter_rows(values_only=True); a cell is None or its str() *)
  workbook_sheets :
    string -> Machine -> res (list (string * list (list (option string)))) }.

(** ** app/document_loader.py *)
Module document_loader.
Section chunking.
Context {L : TextSplitters}.

Definition separators : list string := [newline +:+ newline; newline; " "; ""].

Definition chunk_documents (documents : list Document)
    (chunk_size chunk_overlap : Z) : res (list Document) :=
  match RecursiveCharacterTextSplitter chunk_size chunk_overlap separators with
  | Raise e => Raise e
  | Ok text_splitter => split_documents text_splitter documents
  end.

(** The call with both defaults, [chunk_documents(documents)]. *)
Definition chunk_documents_default (documents : list Document) : res (list Document) :=
  chunk_documents documents 1000%Z 200%Z.

End chunking.

Section loading.
Context {H : Host}.

Definition file_metadata (file_path type : string) : gmap string string :=
  {[ "source" := basename file_path; "type" := type ]}.

Definition load_pdf (file_path : string) (m : Machine) : res (list Document) :=
  match pdf_page_texts file_path m with
  | Raise e => Raise e
  | Ok pages =>
      let text := foldl (fun text page => text +:+ default "" page) "" pages in
      Ok [{| page_content := text; metadata := file_metadata file_path "pdf" |}]
  end.

Definition load_docx (file_path : string) (m : Machine) : res (list Document) :=
  match docx_paragraph_texts file_path m with
  | Raise e => Raise e
  | Ok paragraphs =>
      let text := join newline paragraphs in
      Ok [{| page_content := text; metadata := file_metadata file_path "docx" |}]
  end.

(** [" | ".join([str(cell) if cell is not None else "" for cell in row])] *)
Definition row_text (row : list (option string)) : string :=
  join " | " (map (default "") row).

(** The rows that give a line, told by their cells: a row of two cells or
    more always does, a row of one cell does when that cell has a character
    that is not white space, a row without cells does not. *)
Definition row_kept (row : list (option string)) : bool :=
  match row with
  | [] => false
  | [cell] => strip_truthy (default "" cell)
  | _ :: _ :: _ => true
  end.

(** The lines one sheet adds to [text_parts]. *)
Definition sheet_parts (sheet : string * list (list (option string))) : list string :=
  ("Sheet: " +:+ sheet.1)
    :: List.filter strip_truthy (map row_text sheet.2).

Definition load_excel (file_path : string) (m : Machine) : res (list Document) :=
  match workbook_sheets file_path m with
  | Raise e => Raise e
  | Ok sheets =>
      let text_parts := concat (map sheet_parts sheets) in
      Ok [{| page_content := join newline text_parts;
             metadata := file_metadata file_path "excel" |}]
  end.

Definition loaders : gmap string (string -> Machine -> res (list Document)) :=
  {[ ".pdf" := load_pdf; ".docx" := load_docx;
     ".xlsx" := load_excel; ".xls" := load_excel ]}.

Definition load_document (file_path : string) (m : Machine) : res (list Document) :=
  let extension := lower (splitext file_path).2 in
  match loaders !! extension with
  | None => Raise (Exception ("Unsupported file type: " +:+ extension))
  | Some loader => loader file_path m
  end.
End loading.
End document_loader.

(** ** app/vector_store.py *)
Module vector_store.
Section gateway.
Context {X : External}.

(** The module's globals, the outside world, and the calls issued so far. *)
Record Sys := {
  ext : World;
  _pinecone_client : option Pinecone;
  _vector_store : option PineconeVectorStore;
  _embeddings : option OpenAIEmbeddings;
  log : list event }.

Definition E (A : Type) : Type := ST Sys A.

Definition set_pinecone_client (v : option Pinecone) (s : Sys) : Sys :=
  {| ext := ext s; _pinecone_client := v; _vector_store := _vector_store s;
     _embeddings := _embeddings s; log := log s |}.
Definition set_vector_store (v : option PineconeVectorStore) (s : Sys) : Sys :=
  {| ext := ext s; _pinecone_client := _pinecone_client s; _vector_store := v;
     _embeddings := _embeddings s; log := log s |}.
Definition set_embeddings (v : option OpenAIEmbeddings) (s : Sys) : Sys :=
  {| ext := ext s; _pinecone_client := _pinecone_client s;
     _vector_store := _vector_store s; _embeddings := v; log := log s |}.

(** An outside call: logged, then run on the world; its state change stays
    whether it returns or raises. *)
Definition call {A} (ev : event) (f : World -> World * res A) : E A :=
  fun s =>
    let '(w, r) := f (ext s) in
    ({| ext := w; _pinecone_client := _pinecone_client s;
        _vector_store := _vector_store s; _embeddings := _embeddings s;
        log := log s ++ [ev] |}, r).

Definition os_getenv (name : string) : E (option string) :=
  gets (fun s => getenv name (ext s)).

Definition os_getenv_default (name default : string) : E string :=
  v <- os_getenv name ;; ret (from_option id default v).

Definition get_embeddings : E OpenAIEmbeddings :=
  cached <- gets _embeddings ;;
  match cached with
  | Some e => ret e
  | None =>
      key <- os_getenv "OPENAI_API_KEY" ;;
      e <- call EvOpenAIEmbeddings (OpenAIEmbeddings_new "text-embedding-3-small" key) ;;
      modify (set_embeddings (Some e)) ;;
      ret e
  end.

Definition init_pinecone : E Pinecone :=
  cached <- gets _pinecone_client ;;
  match cached with
  | Some pc => ret pc
  | None =>
      key <- os_getenv "PINECONE_API_KEY" ;;
      pc <- call EvPinecone (Pinecone_new key) ;;
      modify (set_pinecone_client (Some pc)) ;;
      ret pc
  end.

Definition get_vector_store : E PineconeVectorStore :=
  cached <- gets _vector_store ;;
  match cached with
  | Some vs => ret vs
  | None =>
      init_pinecone ;;
      index_name <- os_getenv_default "PINECONE_INDEX_NAME" "rag-documents" ;;
      embedding <- get_embeddings ;;
      key <- os_getenv "PINECONE_API_KEY" ;;
      vs <- call (EvPineconeVectorStore index_name)
              (PineconeVectorStore_new index_name embedding key) ;;
      modify (set_vector_store (Some vs)) ;;
      ret vs
  end.

Definition add_documents (documents : list Document) : E (list string) :=
  vector_store <- get_vector_store ;;
  ids <- call (EvAddDocuments documents) (vs_add_documents vector_store documents) ;;
  ret ids.

Definition get_retriever (k : Z) : E Retriever :=
  vector_store <- get_vector_store ;;
  call (EvAsRetriever k) (vs_as_retriever vector_store k).

Definition similarity_search (query : string) (k : Z) : E (list Document) :=
  vector_store <- get_vector_store ;;
  call (EvSimilaritySearch query k) (vs_similarity_search vector_store query k).



(** The loop over [stats.get("namespaces", {}).keys()]. *)
Fixpoint delete_namespaces (index : Index) (keys : list string) : E unit :=
  match keys with
  | [] => ret tt
  | namespace :: rest =>
      (if truthy namespace
       then call (EvDelete namespace) (index_delete_all index namespace)
       else ret tt) ;;
      delete_namespaces index rest
  end.

Definition stats_namespace_keys (stats : Stats) : list string :=
  (from_option id [] (namespaces stats)).*1.

(** [os.getenv("PINECONE_INDEX_NAME", "rag-documents")] as a state reads it. *)
Definition index_name_of (s : Sys) : string :=
  from_option id "rag-documents" (getenv "PINECONE_INDEX_NAME" (ext s)).

Definition delete_all_records : E Deletion :=
  pc <- init_pinecone ;;
  index_name <- os_getenv_default "PINECONE_INDEX_NAME" "rag-documents" ;;
  index <- call (EvIndex index_name) (pc_Index pc index_name) ;;
  stats <- call EvDescribeIndexStats (index_describe_index_stats index) ;;
  call (EvDelete "") (index_delete_all index "") ;;
  delete_namespaces index (stats_namespace_keys stats) ;;
  ret {| deleted := true;
         previous_vector_count := from_option id 0%Z (total_vector_count stats) |}.
(** The calls [query] makes before it retrieves: the model client, the three
    lazily built gateway clients, and the retriever. *)
Definition setup_call (ev : event) : Prop :=
  match ev with
  | EvChatOpenAI | EvPinecone | EvOpenAIEmbeddings
  | EvPineconeVectorStore _ | EvAsRetriever _ => True
  | _ => False
  end.

End gateway.
End vector_store.

(** ** app/rag_chain.py *)
Module rag_chain.
Import vector_store.
Section chain.
Context {X : External}.

(** The identity of a Python list object. *)
Definition loc : Type := positive.

(** The process state: the gateway's, the module global
    [_session_histories] (each value a reference to a list object), the list
    objects themselves, and the next unused identity. *)
Record State := {
  sys : Sys;
  _session_histories : gmap string loc;
  objs : gmap loc (list message);
  next_loc : loc }.

Definition M (A : Type) : Type := ST State A.

Definition with_sys (s : Sys) (st : State) : State :=
  {| sys := s; _session_histories := _session_histories st;
     objs := objs st; next_loc := next_loc st |}.

(** A gateway computation run inside the process. *)
Definition lift {A} (m : E A) : M A :=
  fun st => let '(s, r) := m (sys st) in (with_sys s st, r).

Definition raise {A} (e : exn) : M A := fun st => (st, Raise e).

(** A list display or a slice: a new list object. *)
Definition new_list (v : list message) : M loc :=
  fun st =>
    ({| sys := sys st; _session_histories := _session_histories st;
        objs := <[next_loc st := v]> (objs st);
        next_loc := Pos.succ (next_loc st) |}, Ok (next_loc st)).

(** The elements of the list a reference points to. *)
Definition read (l : loc) : M (list message) :=
  gets (fun st => default [] (objs st !! l)).

(** [l.append(x)]: the object is changed in place, for every holder of a
    reference to it. *)
Definition list_append (l : loc) (x : message) : M unit :=
  modify (fun st =>
    {| sys := sys st; _session_histories := _session_histories st;
       objs := alter (fun v => v ++ [x]) l (objs st);
       next_loc := next_loc st |}).

(** [_session_histories[session_id] = l] *)
Definition dict_set (session_id : string) (l : loc) : M unit :=
  modify (fun st =>
    {| sys := sys st;
       _session_histories := <[session_id := l]> (_session_histories st);
       objs := objs st; next_loc := next_loc st |}).

(** [del _session_histories[session_id]] *)
Definition dict_del (session_id : string) : M unit :=
  modify (fun st =>
    {| sys := sys st;
       _session_histories := delete session_id (_session_histories st);
       objs := objs st; next_loc := next_loc st |}).

(** [_session_histories[session_id]] *)
Definition dict_get (session_id : string) : M loc :=
  d <- gets _session_histories ;;
  match d !! session_id with
  | Some l => ret l
  | None => raise (Exception "KeyError")
  end.

Definition get_history (session_id : string) : M loc :=
  d <- gets _session_histories ;;
  (match d !! session_id with
   | None => l <- new_list [] ;; dict_set session_id l
   | Some _ => ret tt
   end) ;;
  dict_get session_id.

Definition clear_memory (session_id : string) : M bool :=
  d <- gets _session_histories ;;
  match d !! session_id with
  | Some _ => dict_del session_id ;; ret true
  | None => ret false
  end.

Definition format_docs (docs : list Document) : string :=
  join (newline +:+ newline) (map page_content docs).

Definition system_prompt : string :=
"You are a helpful AI assistant that answers questions based on the provided documents.
Use the following context to answer the question. If you cannot find the answer in the context, 
say so clearly but try to be helpful.

Context:
{context}".

(** One element of [sources]. *)
Definition source_of (doc : Document) : Source :=
  {| source := default "Unknown" (metadata doc !! "source");
     type := default "Unknown" (metadata doc !! "type");
     content_preview :=
       if 200 <? py_len (page_content doc)
       then py_prefix 200 (page_content doc) +:+ "..."
       else page_content doc |}.

(** The dictionary returned by [query]. *)
Record Answer := {
  answer : string;
  sources : list Source }.

Definition query (question session_id : string) : M Answer :=
  key <- lift (os_getenv "OPENAI_API_KEY") ;;
  llm <- lift (call EvChatOpenAI (ChatOpenAI_new "gpt-4o" key)) ;;
  retriever <- lift (get_retriever 4%Z) ;;
  history <- get_history session_id ;;
  docs <- lift (call (EvRetrieverInvoke question) (retriever_invoke retriever question)) ;;
  let context := format_docs docs in
  past <- read history ;;
  let messages := [("system", system_prompt)] ++ past ++ [("human", "{question}")] in
  answer <- lift (call (EvChainInvoke messages context question)
                    (chain_invoke llm messages context question)) ;;
  list_append history ("human", question) ;;
  list_append history ("assistant", answer) ;;
  now <- read history ;;
  (if 20 <? length now
   then l <- new_list (last_n 20 now) ;; dict_set session_id l
   else ret tt) ;;
  ret {| answer := answer; sources := map source_of docs |}.

(** [query(question)], the session id left to its default. *)
Definition query_default (question : string) : M Answer :=
  query question "default".

(** *** What the session map holds, by value *)

(** The turns stored under each session id. *)
Definition sessions (st : State) : gmap string (list message) :=
  omap (fun l => objs st !! l) (_session_histories st).

(** The turns of one session; none when the id is not registered. *)
Definition turns (st : State) (session_id : string) : list message :=
  default [] (sessions st !! session_id).

(** The states Python can be in: every stored reference points to a live
    list object, identities are handed out in increasing order, and no two
    session ids share a list object. *)
Definition wf (st : State) : Prop :=
  (forall s l, _session_histories st !! s = Some l -> is_Some (objs st !! l)) /\
  (forall l, is_Some (objs st !! l) -> (l < next_loc st)%positive) /\
  (forall s1 s2 l, _session_histories st !! s1 = Some l ->
                   _session_histories st !! s2 = Some l -> s1 = s2).

(** The state at import time. *)
Definition initial (w : World) : State :=
  {| sys := {| ext := w; _pinecone_client := None; _vector_store := None;
               _embeddings := None; log := [] |};
     _session_histories := ∅; objs := ∅; next_loc := 1%positive |}.

(** *** The same operations on the by-value view *)

Definition VState : Type := Sys * gmap string (list message).

(** Building the model client and the retriever, lines 51-57. *)
Definition query_setup : E (ChatOpenAI * Retriever) :=
  key <- os_getenv "OPENAI_API_KEY" ;;
  llm <- call EvChatOpenAI (ChatOpenAI_new "gpt-4o" key) ;;
  retriever <- get_retriever 4%Z ;;
  ret (llm, retriever).

Definition prompt_messages (past : list message) : list message :=
  [("system", system_prompt)] ++ past ++ [("human", "{question}")].

Definition exchange (question answer : string) : list message :=
  [("human", question); ("assistant", answer)].

Definition trimmed (now : list message) : list message :=
  if 20 <? length now then last_n 20 now else now.

Definition v_query (question session_id : string) : ST VState Answer :=
  fun '(s, m) =>
    match query_setup s with
    | (s1, Raise e) => ((s1, m), Raise e)
    | (s1, Ok (llm, retriever)) =>
        let past := default [] (m !! session_id) in
        let m1 := <[session_id := past]> m in
        match call (EvRetrieverInvoke question) (retriever_invoke retriever question) s1 with
        | (s2, Raise e) => ((s2, m1), Raise e)
        | (s2, Ok docs) =>
            let messages := prompt_messages past in
            let context := format_docs docs in
            match call (EvChainInvoke messages context question)
                       (chain_invoke llm messages context question) s2 with
            | (s3, Raise e) => ((s3, m1), Raise e)
            | (s3, Ok a) =>
                ((s3, <[session_id := trimmed (past ++ exchange question a)]> m1),
                 Ok {| answer := a; sources := map source_of docs |})
            end
        end
    end.

(** The four ways a call of [query] ends, each with the state it leaves:
    an exception while the clients are built, an exception from
    [retriever.invoke], an exception from the chain, or an answer. *)
Inductive query_outcome (question session_id : string) (st st' : State)
    : res Answer -> Prop :=
| SetupFailed e :
    query_setup (sys st) = (sys st', Raise e) ->
    sessions st' = sessions st ->
    query_outcome question session_id st st' (Raise e)
| RetrievalFailed s1 llm retriever e :
    query_setup (sys st) = (s1, Ok (llm, retriever)) ->
    call (EvRetrieverInvoke question) (retriever_invoke retriever question) s1
      = (sys st', Raise e) ->
    sessions st' = <[session_id := turns st session_id]> (sessions st) ->
    query_outcome question session_id st st' (Raise e)
| GenerationFailed s1 llm retriever s2 docs e :
    query_setup (sys st) = (s1, Ok (llm, retriever)) ->
    call (EvRetrieverInvoke question) (retriever_invoke retriever question) s1
      = (s2, Ok docs) ->
    call (EvChainInvoke (prompt_messages (turns st session_id)) (format_docs docs) question)
         (chain_invoke llm (prompt_messages (turns st session_id)) (format_docs docs) question)
         s2 = (sys st', Raise e) ->
    sessions st' = <[session_id := turns st session_id]> (sessions st) ->
    query_outcome question session_id st st' (Raise e)
| QueryAnswered s1 llm retriever s2 docs a :
    query_setup (sys st) = (s1, Ok (llm, retriever)) ->
    call (EvRetrieverInvoke question) (retriever_invoke retriever question) s1
      = (s2, Ok docs) ->
    call (EvChainInvoke (prompt_messages (turns st session_id)) (format_docs docs) question)
         (chain_invoke llm (prompt_messages (turns st session_id)) (format_docs docs) question)
         s2 = (sys st', Ok a) ->
    sessions st' =
      <[session_id := last_n 20 (turns st session_id ++ exchange question a)]> (sessions st) ->
    query_outcome question session_id st st'
      (Ok {| answer := a; sources := map source_of docs |}).

(** The turns of successive exchanges, oldest first. *)
Fixpoint exchanges (questions answers : list string) : list message :=
  match questions, answers with
  | q :: qs, a :: rest => exchange q a ++ exchanges qs rest
  | _, _ => []
  end.

Definition v_get_history (session_id : string) : ST VState (list message) :=
  fun '(s, m) =>
    let past := default [] (m !! session_id) in
    ((s, <[session_id := past]> m), Ok past).

Definition v_clear_memory (session_id : string) : ST VState bool :=
  fun '(s, m) =>
    match m !! session_id with
    | Some _ => ((s, delete session_id m), Ok true)
    | None => ((s, m), Ok false)
    end.

Definition view (st : State) : VState := (sys st, sessions st).

(** *** A client of the three session operations *)

Inductive op : Type :=
| Query (question : string)
| GetHistory
| ClearMemory.

Inductive output : Type :=
| Answered (r : res Answer)
| History (h : res (list message))
| Cleared (b : res bool).

(** One request on a session; the caller sees what the call returned (for
    [get_history], the elements of the returned list) or the exception. *)
Definition run_op (session_id : string) (o : op) (st : State) : State * output :=
  match o with
  | Query question =>
      let '(st', r) := query question session_id st in (st', Answered r)
  | GetHistory =>
      let '(st', r) := (h <- get_history session_id ;; read h) st in (st', History r)
  | ClearMemory =>
      let '(st', r) := clear_memory session_id st in (st', Cleared r)
  end.

(** Requests served one after another; an exception ends its request, not
    the process. *)
Fixpoint run_ops (session_id : string) (os : list op) (st : State)
    : State * list output :=
  match os with
  | [] => (st, [])
  | o :: rest =>
      let '(st1, out) := run_op session_id o st in
      let '(st2, outs) := run_ops session_id rest st1 in
      (st2, out :: outs)
  end.

Definition v_run_op (session_id : string) (o : op) (v : VState) : VState * output :=
  match o with
  | Query question =>
      let '(v', r) := v_query question session_id v in (v', Answered r)
  | GetHistory =>
      let '(v', r) := v_get_history session_id v in (v', History r)
  | ClearMemory =>
      let '(v', r) := v_clear_memory session_id v in (v', Cleared r)
  end.

Fixpoint v_run_ops (session_id : string) (os : list op) (v : VState)
    : VState * list output :=
  match os with
  | [] => (v, [])
  | o :: rest =>
      let '(v1, out) := v_run_op session_id o v in
      let '(v2, outs) := v_run_ops session_id rest v1 in
      (v2, out :: outs)
  end.

(** Successive queries on one session, stopping at the first exception;
    the answers so far are returned. *)
Fixpoint query_all (questions : list string) (session_id : string) : M (list string) :=
  match questions with
  | [] => ret []
  | q :: rest =>
      r <- query q session_id ;;
      answers <- query_all rest session_id ;;
      ret (answer r :: answers)
  end.

(** Requests on any sessions, served one after another. *)
Fixpoint run_requests (requests : list (string * op)) (st : State)
    : State * list output :=
  match requests with
  | [] => (st, [])
  | (session_id, o) :: rest =>
      let '(st1, out) := run_op session_id o st in
      let '(st2, outs) := run_requests rest st1 in
      (st2, out :: outs)
  end.

(** A history made of whole exchanges, at most [n] of them. *)
Definition whole_exchanges (n : nat) (h : list message) : Prop :=
  exists questions answers,
    length questions = length answers /\ length questions <= n /\
    h = exchanges questions answers.

End chain.
End rag_chain.

(** ** app/main.py

    The views that take their input from the URL or from [request.files]
    are embedded.  The two that read [request.get_json()]
    ([query_documents] and [clear_conversation_memory]) are not: what they
    do depends on the shape of any JSON value and on what Flask raises for a
    body that is none, and neither is fixed by this module. *)
Module main.
Import vector_store rag_chain document_loader.
Section app.
Context {X : External} {L : TextSplitters} {H : Host}.

Definition ALLOWED_EXTENSIONS : gset string := {[ "pdf"; "docx"; "xlsx"; "xls" ]}.

Definition allowed_file (filename : string) : bool :=
  has_char "." filename &&
  match rsplit1 "." filename with
  | Some (_, extension) => bool_decide (lower extension ∈ ALLOWED_EXTENSIONS)
  | None => false
  end.

(** A JSON value; a dictionary lists its items. *)
#[warnings="-register-all"]
Inductive json : Type :=
| JNull
| JBool (b : bool)
| JInt (n : Z)
| JStr (s : string)
| JList (items : list json)
| JDict (items : list (string * json)).

(** What a view returns: [jsonify(body), status]. *)
Record Response := {
  body : json;
  status : nat }.

(** An entry of [uploaded_documents]: the dictionary with the keys ["id"],
    ["name"], ["chunks"] and ["type"]. *)
Record Tracked := {
  doc_id : string;
  doc_name : string;
  doc_chunks : nat;
  doc_type : string }.

Definition tracked_json (d : Tracked) : json :=
  JDict [("id", JStr (doc_id d)); ("name", JStr (doc_name d));
         ("chunks", JInt (Z.of_nat (doc_chunks d))); ("type", JStr (doc_type d))].

(** The calls made on the machine, in the order issued. *)
Inductive host_event : Type :=
| EvSave (path : string)
| EvRemove (path : string)
| EvUuid.

(** The whole process: the chain's state, the machine, the module global
    [uploaded_documents], and the calls made on the machine. *)
Record App := {
  process : State;
  machine : Machine;
  uploaded_documents : list Tracked;
  host_log : list host_event }.

Definition with_process (st : State) (a : App) : App :=
  {| process := st; machine := machine a;
     uploaded_documents := uploaded_documents a; host_log := host_log a |}.

Definition with_uploaded (docs : list Tracked) (a : App) : App :=
  {| process := process a; machine := machine a;
     uploaded_documents := docs; host_log := host_log a |}.

(** A computation of the chain, of the gateway, on the machine, or without
    state, run inside the process. *)
Definition in_process {A} (m : M A) : ST App A :=
  fun a => let '(st, r) := m (process a) in (with_process st a, r).

Definition in_gateway {A} (m : E A) : ST App A := in_process (lift m).

Definition on_machine {A} (ev : host_event) (f : Machine -> Machine * res A) : ST App A :=
  fun a =>
    let '(m, r) := f (machine a) in
    ({| process := process a; machine := m;
        uploaded_documents := uploaded_documents a;
        host_log := host_log a ++ [ev] |}, r).

Definition reading {A} (f : Machine -> res A) : ST App A :=
  fun a => (a, f (machine a)).

Definition pure {A} (r : res A) : ST App A := fun a => (a, r).

(** [str(e)] *)
Definition str_exn (e : exn) : string :=
  match e with Exception description => description end.

Definition error (message : string) (code : nat) : Response :=
  {| body := JDict [("error", JStr message)]; status := code |}.

(** [try: ... except Exception as e: return jsonify({"error": str(e)}), 500] *)
Definition try_500 (view : ST App Response) (a : App) : App * Response :=
  match view a with
  | (a', Ok response) => (a', response)
  | (a', Raise e) => (a', error (str_exn e) 500)
  end.

(** The request of [upload_file]: [request.files], each part with its
    file name and content. *)
Definition upload_file (files : gmap string (string * Blob)) (a : App) : App * Response :=
  match files !! "file" with
  | None => (a, error "No file provided" 400)
  | Some (file_name, content) =>
      if decide (file_name = "") then (a, error "No file selected" 400)
      else if negb (allowed_file file_name) then
        (a, error ("File type not allowed. Supported types: "
                     +:+ join ", " allowed_extensions_order) 400)
      else
        try_500
          (let filename := secure_filename file_name in
           let file_path := path_join UPLOAD_FOLDER filename in
           on_machine (EvSave file_path) (file_save content file_path) ;;
           documents <- reading (load_document file_path) ;;
           chunks <- pure (chunk_documents_default documents) ;;
           doc_ids <- in_gateway (add_documents chunks) ;;
           uuid <- on_machine EvUuid (fun m => let '(m', u) := uuid4 m in (m', Ok u)) ;;
           let doc_info :=
             {| doc_id := uuid; doc_name := filename; doc_chunks := length chunks;
                doc_type := lower (splitext filename).2 |} in
           modify (fun a => with_uploaded (uploaded_documents a ++ [doc_info]) a) ;;
           on_machine (EvRemove file_path) (os_remove file_path) ;;
           ret {| body := JDict [("success", JBool true);
                                 ("message", JStr "Document processed successfully");
                                 ("document", tracked_json doc_info)];
                  status := 200 |}) a
  end.

(** Where an upload that passed the three checks ends, stage by stage, with
    the state it leaves and the response it gives: the file is saved, the
    saved file is loaded, the loaded documents are cut, the chunks are
    indexed, the entry is added, the file is removed. *)
Inductive upload_ends (content : Blob) (filename : string) (a : App)
    : App -> Response -> Prop :=
| SaveFailed m e :
    file_save content (path_join UPLOAD_FOLDER filename) (machine a) = (m, Raise e) ->
    upload_ends content filename a
      {| process := process a; machine := m;
         uploaded_documents := uploaded_documents a;
         host_log := host_log a ++ [EvSave (path_join UPLOAD_FOLDER filename)] |}
      (error (str_exn e) 500)
| LoadFailed m e :
    file_save content (path_join UPLOAD_FOLDER filename) (machine a) = (m, Ok tt) ->
    load_document (path_join UPLOAD_FOLDER filename) m = Raise e ->
    upload_ends content filename a
      {| process := process a; machine := m;
         uploaded_documents := uploaded_documents a;
         host_log := host_log a ++ [EvSave (path_join UPLOAD_FOLDER filename)] |}
      (error (str_exn e) 500)
| ChunkFailed m documents e :
    file_save content (path_join UPLOAD_FOLDER filename) (machine a) = (m, Ok tt) ->
    load_document (path_join UPLOAD_FOLDER filename) m = Ok documents ->
    chunk_documents_default documents = Raise e ->
    upload_ends content filename a
      {| process := process a; machine := m;
         uploaded_documents := uploaded_documents a;
         host_log := host_log a ++ [EvSave (path_join UPLOAD_FOLDER filename)] |}
      (error (str_exn e) 500)
| IndexFailed m documents chunks s e :
    file_save content (path_join UPLOAD_FOLDER filename) (machine a) = (m, Ok tt) ->
    load_document (path_join UPLOAD_FOLDER filename) m = Ok documents ->
    chunk_documents_default documents = Ok chunks ->
    add_documents chunks (sys (process a)) = (s, Raise e) ->
    upload_ends content filename a
      {| process := with_sys s (process a); machine := m;
         uploaded_documents := uploaded_documents a;
         host_log := host_log a ++ [EvSave (path_join UPLOAD_FOLDER filename)] |}
      (error (str_exn e) 500)
| RemoveFailed m documents chunks s doc_ids m1 uuid m2 e :
    file_save content (path_join UPLOAD_FOLDER filename) (machine a) = (m, Ok tt) ->
    load_document (path_join UPLOAD_FOLDER filename) m = Ok documents ->
    chunk_documents_default documents = Ok chunks ->
    add_documents chunks (sys (process a)) = (s, Ok doc_ids) ->
    uuid4 m = (m1, uuid) ->
    os_remove (path_join UPLOAD_FOLDER filename) m1 = (m2, Raise e) ->
    upload_ends content filename a
      {| process := with_sys s (process a); machine := m2;
         uploaded_documents :=
           uploaded_documents a
             ++ [{| doc_id := uuid; doc_name := filename; doc_chunks := length chunks;
                    doc_type := lower (splitext filename).2 |}];
         host_log := host_log a ++ [EvSave (path_join UPLOAD_FOLDER filename); EvUuid;
                                    EvRemove (path_join UPLOAD_FOLDER filename)] |}
      (error (str_exn e) 500)
| Uploaded m documents chunks s doc_ids m1 uuid m2 :
    file_save content (path_join UPLOAD_FOLDER filename) (machine a) = (m, Ok tt) ->
    load_document (path_join UPLOAD_FOLDER filename) m = Ok documents ->
    chunk_documents_default documents = Ok chunks ->
    add_documents chunks (sys (process a)) = (s, Ok doc_ids) ->
    uuid4 m = (m1, uuid) ->
    os_remove (path_join UPLOAD_FOLDER filename) m1 = (m2, Ok tt) ->
    upload_ends content filename a
      {| process := with_sys s (process a); machine := m2;
         uploaded_documents :=
           uploaded_documents a
             ++ [{| doc_id := uuid; doc_name := filename; doc_chunks := length chunks;
                    doc_type := lower (splitext filename).2 |}];
         host_log := host_log a ++ [EvSave (path_join UPLOAD_FOLDER filename); EvUuid;
                                    EvRemove (path_join UPLOAD_FOLDER filename)] |}
      {| body := JDict [("success", JBool true);
                        ("message", JStr "Document processed successfully");
                        ("document",
                         tracked_json
                           {| doc_id := uuid; doc_name := filename;
                              doc_chunks := length chunks;
                              doc_type := lower (splitext filename).2 |})];
         status := 200 |}.

Definition list_documents (a : App) : App * Response :=
  (a, {| body := JDict [("success", JBool true);
                        ("documents", JList (map tracked_json (uploaded_documents a)))];
         status := 200 |}).

Definition delete_document (id : string) (a : App) : App * Response :=
  (with_uploaded (filter (fun d => doc_id d <> id) (uploaded_documents a)) a,
   {| body := JDict [("success", JBool true);
                     ("message", JStr "Document removed from list")];
      status := 200 |}).

Definition health_check (a : App) : App * Response :=
  (a, {| body := JDict [("status", JStr "healthy")]; status := 200 |}).

Definition delete_all_pinecone_records (a : App) : App * Response :=
  try_500
    (result <- in_gateway delete_all_records ;;
     modify (with_uploaded []) ;;
     ret {| body := JDict [("success", JBool true);
                           ("message",
                            JStr ("Deleted " +:+ pretty (previous_vector_count result)
                                    +:+ " vectors from Pinecone"))];
            status := 200 |}) a.

End app.
End main.

(** ** delete_pinecone.py, the stand-alone script *)
Module delete_pinecone.
Import vector_store.
Section script.
Context {X : External}.

(** The script has its own client [pc]; it shares the outside world with
    the gateway and writes lines to standard output. *)
Definition Run : Type := Sys * list string.

Definition outside {A} (m : E A) : ST Run A :=
  fun '(s, out) => let '(s', r) := m s in ((s', out), r).

Definition print (line : string) : ST Run unit :=
  modify (fun '(s, out) => (s, out ++ [line])).

Definition script : ST Run unit :=
  key <- outside (os_getenv "PINECONE_API_KEY") ;;
  pc <- outside (call EvPinecone (Pinecone_new key)) ;;
  index_name <- outside (os_getenv_default "PINECONE_INDEX_NAME" "shopify-products") ;;
  print ("Connecting to Pinecone index: " +:+ index_name) ;;
  index <- outside (call (EvIndex index_name) (pc_Index pc index_name)) ;;
  stats <- outside (call EvDescribeIndexStats (index_describe_index_stats index)) ;;
  print ("Current vector count: "
           +:+ pretty (from_option id 0%Z (total_vector_count stats))) ;;
  print "Deleting all records..." ;;
  outside (call (EvDelete "") (index_delete_all index "")) ;;
  outside (delete_namespaces index (stats_namespace_keys stats)) ;;
  print "✓ All records deleted successfully!".

End script.
End delete_pinecone.

(** ** In-memory stand-ins for the outside parties

    Test doubles of the kind the service is exercised with: an index that
    is a list of namespaces with their records, a retriever that returns the
    first [k] records of the default namespace, a model that echoes the
    question, and switches that make retrieval or generation fail.  As with
    the store's client, a [k] below 1 is refused. *)
Module in_memory.

Record MemWorld := {
  mem_index : list (string * list Document);
  retrieval_down : bool;
  llm_down : bool }.

Definition with_index (idx : list (string * list Document)) (w : MemWorld) : MemWorld :=
  {| mem_index := idx; retrieval_down := retrieval_down w; llm_down := llm_down w |}.

Fixpoint records_in (namespace : string) (idx : list (string * list Document))
    : list Document :=
  match idx with
  | [] => []
  | (ns, recs) :: rest =>
      if decide (ns = namespace) then recs else records_in namespace rest
  end.

Fixpoint upsert (namespace : string) (docs : list Document)
    (idx : list (string * list Document)) : list (string * list Document) :=
  match idx with
  | [] => [(namespace, docs)]
  | (ns, recs) :: rest =>
      if decide (ns = namespace) then (ns, recs ++ docs) :: rest
      else (ns, recs) :: upsert namespace docs rest
  end.

Definition drop_namespace (namespace : string) (idx : list (string * list Document))
    : list (string * list Document) :=
  filter (fun p => p.1 <> namespace) idx.

(** The index after [delete_all] on each non-empty key of [keys], in order. *)
Definition drop_namespaces (keys : list string) (idx : list (string * list Document))
    : list (string * list Document) :=
  foldl (fun i k => if truthy k then drop_namespace k i else i) idx keys.

Definition count_all (idx : list (string * list Document)) : Z :=
  foldr (fun p n => (Z.of_nat (length p.2) + n)%Z) 0%Z idx.

Definition stats_of (idx : list (string * list Document)) : Stats :=
  {| namespaces := Some (map (fun p => (p.1, Z.of_nat (length p.2))) idx);
     total_vector_count := Some (count_all idx) |}.

Definition search (k : Z) (w : MemWorld) : MemWorld * res (list Document) :=
  if retrieval_down w then (w, Raise (Exception "RetrievalBackendError"))
  else if (k <? 1)%Z then (w, Raise (Exception "top_k must be a positive integer"))
  else (w, Ok (take (Z.to_nat k) (records_in "" (mem_index w)))).

#[local] Instance services : External := {|
  World := MemWorld;
  Pinecone := unit;
  Index := unit;
  OpenAIEmbeddings := unit;
  PineconeVectorStore := unit;
  Retriever := Z;
  ChatOpenAI := unit;
  getenv := fun _ _ => None;
  OpenAIEmbeddings_new := fun _ _ w => (w, Ok tt);
  Pinecone_new := fun _ w => (w, Ok tt);
  PineconeVectorStore_new := fun _ _ _ w => (w, Ok tt);
  ChatOpenAI_new := fun _ _ w => (w, Ok tt);
  vs_add_documents := fun _ docs w =>
    (with_index (upsert "" docs (mem_index w)) w, Ok (map (fun _ => "id") docs));
  vs_as_retriever := fun _ k w => (w, Ok k);
  vs_similarity_search := fun _ _ k w => search k w;
  retriever_invoke := fun k _ w => search k w;
  chain_invoke := fun _ _ _ question w =>
    if llm_down w then (w, Raise (Exception "GenerationBackendError"))
    else (w, Ok question);
  pc_Index := fun _ _ w => (w, Ok tt);
  index_describe_index_stats := fun _ w => (w, Ok (stats_of (mem_index w)));
  index_delete_all := fun _ namespace w =>
    (with_index (drop_namespace namespace (mem_index w)) w, Ok tt) |}.

(** A splitter with the constructor checks of the library (a chunk size of
    at least one, an overlap that is not negative and not larger than the
    chunk size) that answers for the texts the library leaves in one piece
    and for no other: a text of plain ASCII that is not empty, has no white
    space at either end and fits the chunk size comes back as it is, with
    its metadata; on any other text the stand-in raises. *)
Definition plain (c : ascii) : bool := nat_of_ascii c <? 128.

Fixpoint all_plain (text : string) : bool :=
  match text with
  | EmptyString => true
  | String c rest => plain c && all_plain rest
  end.

Fixpoint ends_in_space (text : string) : bool :=
  match text with
  | EmptyString => false
  | String c EmptyString => isspace c
  | String _ rest => ends_in_space rest
  end.

Definition one_piece (size : nat) (text : string) : bool :=
  match text with
  | EmptyString => false
  | String c _ =>
      negb (isspace c) && negb (ends_in_space text) && all_plain text
        && (py_len text <=? size)
  end.

#[local] Instance small_texts : TextSplitters := {|
  Splitter := nat;
  RecursiveCharacterTextSplitter := fun chunk_size chunk_overlap _ =>
    if (chunk_size <=? 0)%Z then Raise (Exception "ValueError")
    else if (chunk_overlap <? 0)%Z then Raise (Exception "ValueError")
    else if (chunk_overlap >? chunk_size)%Z then Raise (Exception "ValueError")
    else Ok (Z.to_nat chunk_size);
  split_documents := fun size docs =>
    if forallb (fun d => one_piece size (page_content d)) docs then Ok docs
    else Raise (Exception "NotImplementedError") |}.

Definition doc (text src : string) : Document :=
  {| page_content := text; metadata := {[ "source" := src; "type" := "pdf" ]} |}.

Definition paris : Document := doc "Paris is the capital of France." "geo.pdf".

(** An index with two records in the default namespace and one in another. *)
Definition world0 : MemWorld :=
  {| mem_index := [("", [paris; doc "Berlin is the capital of Germany." "geo.pdf"]);
                   ("archive", [doc "Rome is the capital of Italy." "old.pdf"])];
     retrieval_down := false;
     llm_down := false |}.

Definition st0 : rag_chain.State := rag_chain.initial world0.

(** The same index behind a model that is down, and behind a retriever that
    is down. *)
Definition st_llm_down : rag_chain.State :=
  rag_chain.initial
    {| mem_index := mem_index world0; retrieval_down := false; llm_down := true |}.

Definition st_retrieval_down : rag_chain.State :=
  rag_chain.initial
    {| mem_index := mem_index world0; retrieval_down := true; llm_down := false |}.

(** The process after one query on session ["s2"]. *)
Definition st_s2 : rag_chain.State :=
  (rag_chain.query "What is the capital of Italy?" "s2" st0).1.

(** What the stand-ins answer on [world0]: the question itself, with the two
    records of the default namespace as sources. *)
Definition echoed (question : string) : rag_chain.Answer :=
  {| rag_chain.answer := question;
     rag_chain.sources :=
       map rag_chain.source_of (records_in "" (mem_index world0)) |}.

Definition eleven : list string :=
  ["q1"; "q2"; "q3"; "q4"; "q5"; "q6"; "q7"; "q8"; "q9"; "q10"; "q11"].

(** The same services with a vector store that cannot be built and an index
    whose statistics cannot be read. *)
#[local] Instance broken : External := {|
  World := MemWorld;
  Pinecone := unit;
  Index := unit;
  OpenAIEmbeddings := unit;
  PineconeVectorStore := unit;
  Retriever := Z;
  ChatOpenAI := unit;
  getenv := fun _ _ => None;
  OpenAIEmbeddings_new := fun _ _ w => (w, Ok tt);
  Pinecone_new := fun _ w => (w, Ok tt);
  PineconeVectorStore_new := fun _ _ _ w => (w, Raise (Exception "RetrievalBackendError"));
  ChatOpenAI_new := fun _ _ w => (w, Ok tt);
  vs_add_documents := fun _ docs w =>
    (with_index (upsert "" docs (mem_index w)) w, Ok (map (fun _ => "id") docs));
  vs_as_retriever := fun _ k w => (w, Ok k);
  vs_similarity_search := fun _ _ k w => search k w;
  retriever_invoke := fun k _ w => search k w;
  chain_invoke := fun _ _ _ question w => (w, Ok question);
  pc_Index := fun _ _ w => (w, Ok tt);
  index_describe_index_stats := fun _ w => (w, Raise (Exception "RetrievalBackendError"));
  index_delete_all := fun _ namespace w =>
    (with_index (drop_namespace namespace (mem_index w)) w, Ok tt) |}.

(** A machine whose disk is a list of files with their text, and whose
    parsers give the text of a file as one page, one paragraph, or a sheet
    whose first row has the text in its one cell, followed by a row of two
    empty cells and a row of one empty cell. *)
Record MemMachine := {
  disk : list (string * string);
  uuids : nat }.

Fixpoint file_at (path : string) (files : list (string * string)) : option string :=
  match files with
  | [] => None
  | (p, text) :: rest => if decide (p = path) then Some text else file_at path rest
  end.

Definition parsed {A} (path : string) (m : MemMachine) (f : string -> A) : res A :=
  match file_at path (disk m) with
  | Some text => Ok (f text)
  | None => Raise (Exception "FileNotFoundError")
  end.

#[local] Instance host : Host := {|
  Machine := MemMachine;
  Blob := string;
  UPLOAD_FOLDER := "uploads";
  allowed_extensions_order := ["pdf"; "docx"; "xlsx"; "xls"];
  secure_filename := fun name => name;
  file_save := fun content path m =>
    ({| disk := (path, content) :: disk m; uuids := uuids m |}, Ok tt);
  os_remove := fun path m =>
    match file_at path (disk m) with
    | Some _ =>
        ({| disk := filter (fun f => f.1 <> path) (disk m); uuids := uuids m |}, Ok tt)
    | None => (m, Raise (Exception "FileNotFoundError"))
    end;
  uuid4 := fun m =>
    ({| disk := disk m; uuids := S (uuids m) |}, "uuid-" +:+ pretty (uuids m));
  pdf_page_texts := fun path m => parsed path m (fun text => [Some text]);
  docx_paragraph_texts := fun path m => parsed path m (fun text => [text]);
  workbook_sheets := fun path m =>
    parsed path m (fun text => [("Sheet1", [[Some text]; [None; None]; [None]])]) |}.

Definition machine0 : MemMachine := {| disk := []; uuids := 0 |}.

(** The process at start, on working services and on broken ones. *)
Definition app0 : main.App (X := services) (H := host) :=
  {| main.process := st0; main.machine := machine0;
     main.uploaded_documents := []; main.host_log := [] |}.

Definition app_broken : main.App (X := broken) (H := host) :=
  {| main.process := rag_chain.initial world0; main.machine := machine0;
     main.uploaded_documents := []; main.host_log := [] |}.

(** [text] written [n] times. *)
Fixpoint times (n : nat) (text : string) : string :=
  match n with
  | O => EmptyString
  | S n' => text +:+ times n' text
  end.

(** An upload of a small PDF. *)
Definition upload_report : gmap string (string * string) :=
  {[ "file" := ("Report.PDF", "Quarterly figures.") ]}.

End in_memory.
Module rag_chain_facts.
Import vector_store rag_chain.
Section facts.
Context {X : External}.
Implicit Types (st : State) (m : gmap string (list message)).

Lemma py_len_app a b : py_len (a +:+ b) = py_len a + py_len b.
Proof. induction a as [|c a IH]; simpl; [done|]. rewrite IH. lia. Qed.

Lemma py_prefix_len n s : n <= py_len s -> py_len (py_prefix n s) = n.
Proof.
  revert n. induction s as [|c s IH]; intros n Hn; simpl in *.
  - lia.
  - destruct (continues c) eqn:Hc; simpl.
    + rewrite Hc. apply IH. lia.
    + destruct n as [|n]; simpl; [done|]. rewrite Hc, IH; lia.
Qed.

Lemma py_prefix_split n s :
  exists rest, s = py_prefix n s +:+ rest /\ (n < py_len s -> at_character rest).
Proof.
  revert n. induction s as [|c s IH]; intros n; simpl.
  - exists "". split; [done|]. lia.
  - destruct (continues c) eqn:Hc.
    + destruct (IH n) as (rest & Hs & Hat). exists rest. split.
      * change (String c s = String c (py_prefix n s +:+ rest)). by rewrite <- Hs.
      * intros Hn. apply Hat. lia.
    + destruct n as [|n].
      * exists (String c s). split; [done|]. intros _. exact Hc.
      * destruct (IH n) as (rest & Hs & Hat). exists rest. split.
        -- change (String c s = String c (py_prefix n s +:+ rest)). by rewrite <- Hs.
        -- intros Hn. apply Hat. lia.
Qed.

Lemma wf_initial w : wf (initial w).
Proof.
  repeat split; simpl; intros *.
  - rewrite lookup_empty. discriminate.
  - rewrite lookup_empty. intros [? ?]. discriminate.
  - rewrite lookup_empty. discriminate.
Qed.

Lemma sessions_lookup st s :
  sessions st !! s = _session_histories st !! s ≫= (fun l => objs st !! l).
Proof. unfold sessions. by rewrite lookup_omap. Qed.

Lemma sessions_lookup_wf st s l :
  wf st -> _session_histories st !! s = Some l ->
  sessions st !! s = Some (turns st s) /\ objs st !! l = Some (turns st s).
Proof.
  intros (Hlive & _ & _) Hs. unfold turns. rewrite sessions_lookup, Hs. simpl.
  destruct (Hlive _ _ Hs) as [v Hv]. by rewrite Hv.
Qed.

Lemma sessions_lookup_None st s :
  wf st -> _session_histories st !! s = None <-> sessions st !! s = None.
Proof.
  intros (Hlive & _ & _). rewrite sessions_lookup. split.
  - intros ->. done.
  - destruct (_session_histories st !! s) as [l|] eqn:Hs; [|done].
    simpl. destruct (Hlive _ _ Hs) as [v Hv]. rewrite Hv. discriminate.
Qed.

(** Registering a new list object under a session id. *)
Lemma register_run st sid v :
  wf st ->
  exists st', (l <- new_list v ;; dict_set sid l) st = (st', Ok tt) /\
    wf st' /\ sys st' = sys st /\
    _session_histories st' !! sid = Some (next_loc st) /\
    sessions st' = <[sid := v]> (sessions st).
Proof.
  intros (Hlive & Hnext & Hinj). eexists. split; [reflexivity|]. simpl.
  assert (Hfresh : forall s l, _session_histories st !! s = Some l -> l <> next_loc st).
  { intros s l Hs ->. apply Hlive, Hnext in Hs. lia. }
  split; [|split; [done|split]].
  - repeat split; simpl.
    + intros s l. rewrite lookup_insert. case_decide; intros Hs.
      * simplify_eq. rewrite lookup_insert_eq. eauto.
      * rewrite lookup_insert_ne; [eauto|]. intros <-. by eapply Hfresh.
    + intros l. rewrite lookup_insert. case_decide.
      * subst. lia.
      * intros Hl. apply Hnext in Hl. lia.
    + intros s1 s2 l. rewrite !lookup_insert.
      repeat case_decide; intros; simplify_eq; try done.
      * exfalso. by eapply Hfresh.
      * exfalso. by eapply Hfresh.
      * eauto.
  - by rewrite lookup_insert_eq.
  - apply map_eq. intros s. rewrite sessions_lookup. simpl.
    rewrite !lookup_insert. case_decide.
    + subst. simpl. by rewrite lookup_insert_eq.
    + rewrite sessions_lookup.
      destruct (_session_histories st !! s) as [l|] eqn:Hs; [|done].
      simpl. rewrite lookup_insert_ne; [done|]. intros <-. by eapply Hfresh.
Qed.

Lemma get_history_run st sid :
  wf st ->
  exists st' l, get_history sid st = (st', Ok l) /\
    wf st' /\ sys st' = sys st /\
    _session_histories st' !! sid = Some l /\
    sessions st' = <[sid := turns st sid]> (sessions st).
Proof.
  intros Hwf. unfold get_history, bind at 1 2, gets.
  destruct (_session_histories st !! sid) as [l|] eqn:Hs.
  - exists st, l. unfold ret, dict_get, bind, gets. rewrite Hs.
    repeat split; try done; try apply Hwf.
    symmetry. apply insert_id. by eapply sessions_lookup_wf.
  - destruct (register_run st sid [] Hwf) as (st' & Hrun & Hwf' & Hsys & Hl & Hv).
    rewrite Hrun. exists st', (next_loc st).
    unfold dict_get, bind, gets. rewrite Hl. repeat split; try done; try apply Hwf'.
    rewrite Hv. unfold turns.
    by rewrite (proj1 (sessions_lookup_None st sid Hwf) Hs).
Qed.

Lemma read_run st sid l :
  wf st -> _session_histories st !! sid = Some l ->
  read l st = (st, Ok (turns st sid)).
Proof.
  intros Hwf Hs. unfold read, gets.
  by rewrite (proj2 (sessions_lookup_wf st sid l Hwf Hs)).
Qed.

Lemma list_append_run st sid l x :
  wf st -> _session_histories st !! sid = Some l ->
  exists st', list_append l x st = (st', Ok tt) /\
    wf st' /\ sys st' = sys st /\
    _session_histories st' = _session_histories st /\
    sessions st' = <[sid := turns st sid ++ [x]]> (sessions st).
Proof.
  intros Hwf Hs. destruct (sessions_lookup_wf st sid l Hwf Hs) as [Hv Hl].
  destruct Hwf as (Hlive & Hnext & Hinj).
  eexists. split; [reflexivity|]. simpl. split; [|repeat split].
  - repeat split; simpl.
    + intros s l0 Hs0. rewrite lookup_alter. case_decide.
      * subst. rewrite Hl. simpl. eauto.
      * eauto.
    + intros l0. rewrite lookup_alter. case_decide.
      * subst. intros _. apply Hnext. eauto.
      * apply Hnext.
    + apply Hinj.
  - apply map_eq. intros s. rewrite sessions_lookup. simpl.
    rewrite lookup_insert. case_decide.
    + subst. rewrite Hs. simpl. rewrite lookup_alter_eq, Hl. done.
    + rewrite sessions_lookup.
      destruct (_session_histories st !! s) as [l0|] eqn:Hs0; [|done].
      simpl. rewrite lookup_alter_ne; [done|]. intros <-. eauto.
Qed.

Lemma clear_memory_run st sid :
  wf st ->
  exists st', clear_memory sid st = (st', Ok (bool_decide (is_Some (sessions st !! sid)))) /\
    wf st' /\ sys st' = sys st /\
    sessions st' = delete sid (sessions st).
Proof.
  intros Hwf. unfold clear_memory, bind at 1, gets.
  destruct (_session_histories st !! sid) as [l|] eqn:Hs.
  - destruct (sessions_lookup_wf st sid l Hwf Hs) as [Hv _].
    eexists. split.
    { unfold bind, dict_del, modify, ret. rewrite Hv.
      rewrite bool_decide_eq_true_2 by eauto. reflexivity. }
    destruct Hwf as (Hlive & Hnext & Hinj). simpl. split; [|split; [done|]].
    + repeat split; simpl; [| apply Hnext |].
      * intros s l0. rewrite lookup_delete. case_decide; [done|]. eauto.
      * intros s1 s2 l0. rewrite !lookup_delete.
        repeat case_decide; try done. eauto.
    + apply map_eq. intros s. rewrite sessions_lookup. simpl.
      rewrite !lookup_delete. case_decide; [done|]. by rewrite sessions_lookup.
  - pose proof (proj1 (sessions_lookup_None st sid Hwf) Hs) as Hv.
    exists st. rewrite Hv. rewrite bool_decide_eq_false_2 by (intros [? ?]; done).
    repeat split; try done; try apply Hwf.
    symmetry. by apply delete_id.
Qed.

(** A gateway computation touches the gateway's state only. *)
Lemma bind_lift {A B} (m : E A) (k : A -> M B) st :
  bind (lift m) k st =
  match m (sys st) with
  | (s, Ok a) => k a (with_sys s st)
  | (s, Raise e) => (with_sys s st, Raise e)
  end.
Proof. unfold bind, lift. by destruct (m (sys st)) as [s [a|e]]. Qed.

Lemma bind_run {S A B} (m : ST S A) (k : A -> ST S B) s s' r :
  m s = (s', r) ->
  bind m k s = match r with Ok a => k a s' | Raise e => (s', Raise e) end.
Proof. intros Hm. unfold bind. by rewrite Hm. Qed.

Lemma query_sim question sid st st' r :
  wf st -> query question sid st = (st', r) ->
  wf st' /\ v_query question sid (view st) = (view st', r).
Proof.
  intros Hwf Hq. unfold query in Hq.
  unfold v_query, view, query_setup.
  rewrite bind_lift in Hq. unfold os_getenv at 1, gets at 1 in Hq.
  unfold bind at 1, os_getenv at 1, gets at 1. cbv beta iota in Hq |- *.
  rewrite bind_lift in Hq. unfold bind at 1.
  change (sys (with_sys (sys st) st)) with (sys st) in Hq.
  destruct (call EvChatOpenAI _ (sys st)) as [s1 [llm|e]].
  2:{ inversion Hq; subst. split; [exact Hwf|reflexivity]. }
  rewrite bind_lift in Hq. unfold bind at 1.
  change (sys (with_sys s1 _)) with s1 in Hq.
  destruct (get_retriever 4 s1) as [s2 [retriever|e]].
  2:{ inversion Hq; subst. split; [exact Hwf|reflexivity]. }
  unfold ret at 1.
  set (st2 := with_sys s2 _) in Hq.
  assert (Hwf2 : wf st2) by exact Hwf.
  destruct (get_history_run st2 sid Hwf2) as (st3 & l & Hrun & Hwf3 & Hsys3 & Hl3 & Hv3).
  rewrite (bind_run _ _ _ _ _ Hrun) in Hq.
  rewrite bind_lift in Hq. rewrite Hsys3 in Hq.
  change (sys st2) with s2 in Hq.
  change (sessions st2) with (sessions st) in Hv3.
  change (turns st2 sid) with (turns st sid) in Hv3.
  fold (turns st sid).
  destruct (call (EvRetrieverInvoke question) _ s2) as [s4 [docs|e]].
  2:{ inversion Hq; subst. split; [exact Hwf3|]. unfold view. simpl.
      change (sessions (with_sys s4 st3)) with (sessions st3). by rewrite Hv3. }
  set (st4 := with_sys s4 st3) in Hq.
  assert (Hwf4 : wf st4) by exact Hwf3.
  assert (Hl4 : _session_histories st4 !! sid = Some l) by exact Hl3.
  assert (Hv4 : sessions st4 = <[sid := turns st sid]> (sessions st)) by exact Hv3.
  assert (Ht4 : turns st4 sid = turns st sid).
  { unfold turns at 1. by rewrite Hv4, lookup_insert_eq. }
  rewrite (bind_run _ _ _ _ _ (read_run st4 sid l Hwf4 Hl4)) in Hq.
  rewrite Ht4 in Hq. rewrite bind_lift in Hq.
  change (sys st4) with s4 in Hq. unfold prompt_messages.
  destruct (call (EvChainInvoke _ _ _) _ s4) as [s5 [a|e]].
  2:{ inversion Hq; subst. split; [exact Hwf4|]. unfold view. simpl.
      change (sessions (with_sys s5 st4)) with (sessions st4). by rewrite Hv4. }
  set (st5 := with_sys s5 st4) in Hq.
  assert (Hwf5 : wf st5) by exact Hwf4.
  assert (Hl5 : _session_histories st5 !! sid = Some l) by exact Hl4.
  destruct (list_append_run st5 sid l ("human", question) Hwf5 Hl5)
    as (st6 & Hrun6 & Hwf6 & Hsys6 & Hd6 & Hv6).
  rewrite (bind_run _ _ _ _ _ Hrun6) in Hq.
  assert (Hl6 : _session_histories st6 !! sid = Some l) by (by rewrite Hd6).
  destruct (list_append_run st6 sid l ("assistant", a) Hwf6 Hl6)
    as (st7 & Hrun7 & Hwf7 & Hsys7 & Hd7 & Hv7).
  rewrite (bind_run _ _ _ _ _ Hrun7) in Hq.
  assert (Hl7 : _session_histories st7 !! sid = Some l) by (by rewrite Hd7).
  rewrite (bind_run _ _ _ _ _ (read_run st7 sid l Hwf7 Hl7)) in Hq.
  assert (Ht6 : turns st6 sid = turns st sid ++ [("human", question)]).
  { unfold turns at 1. rewrite Hv6, lookup_insert_eq. simpl.
    change (turns st5 sid) with (turns st4 sid). by rewrite Ht4. }
  assert (Ht7 : turns st7 sid = turns st sid ++ exchange question a).
  { unfold turns at 1. rewrite Hv7, lookup_insert_eq. simpl.
    rewrite Ht6, <- app_assoc. done. }
  assert (Hv7' : sessions st7 =
                 <[sid := turns st sid ++ exchange question a]>
                   (<[sid := turns st sid]> (sessions st))).
  { rewrite Hv7, Hv6. change (sessions st5) with (sessions st4). rewrite Hv4.
    rewrite !insert_insert_eq. f_equal. rewrite <- Ht7. unfold turns at 2.
    by rewrite Hv7, lookup_insert_eq. }
  assert (Hs7 : sys st7 = s5) by (by rewrite Hsys7, Hsys6).
  rewrite Ht7 in Hq. unfold trimmed.
  destruct (20 <? length (turns st sid ++ exchange question a)).
  - destruct (register_run st7 sid (last_n 20 (turns st sid ++ exchange question a)) Hwf7)
      as (st8 & Hrun8 & Hwf8 & Hsys8 & _ & Hv8).
    rewrite (bind_run _ _ _ _ _ Hrun8) in Hq. injection Hq as <- <-.
    split; [exact Hwf8|]. unfold view. rewrite Hsys8, Hs7, Hv8, Hv7'.
    by rewrite !insert_insert_eq.
  - unfold bind, ret in Hq. injection Hq as <- <-.
    split; [exact Hwf7|]. unfold view. by rewrite Hs7, Hv7'.
Qed.

Lemma get_history_sim sid st st' r :
  wf st -> (h <- get_history sid ;; read h) st = (st', r) ->
  wf st' /\ v_get_history sid (view st) = (view st', r).
Proof.
  intros Hwf Hq.
  destruct (get_history_run st sid Hwf) as (st1 & l & Hrun & Hwf1 & Hsys1 & Hl1 & Hv1).
  rewrite (bind_run _ _ _ _ _ Hrun), (read_run st1 sid l Hwf1 Hl1) in Hq.
  injection Hq as <- <-. split; [done|]. unfold v_get_history, view.
  rewrite Hsys1, Hv1. unfold turns at 2. by rewrite Hv1, lookup_insert_eq.
Qed.

Lemma clear_memory_sim sid st st' r :
  wf st -> clear_memory sid st = (st', r) ->
  wf st' /\ v_clear_memory sid (view st) = (view st', r).
Proof.
  intros Hwf Hq.
  destruct (clear_memory_run st sid Hwf) as (st1 & Hrun & Hwf1 & Hsys1 & Hv1).
  rewrite Hrun in Hq. injection Hq as <- <-. split; [done|].
  unfold v_clear_memory, view. rewrite Hsys1, Hv1.
  destruct (sessions st !! sid) as [h|] eqn:Hs.
  - by rewrite bool_decide_eq_true_2 by eauto.
  - rewrite bool_decide_eq_false_2 by (intros [? ?]; done).
    by rewrite delete_id.
Qed.

Lemma run_op_sim sid o st st' out :
  wf st -> run_op sid o st = (st', out) ->
  wf st' /\ v_run_op sid o (view st) = (view st', out).
Proof.
  intros Hwf Hq. destruct o as [question| |]; unfold run_op in Hq; unfold v_run_op.
  - destruct (query question sid st) as [st1 r] eqn:Hr. injection Hq as <- <-.
    destruct (query_sim _ _ _ _ _ Hwf Hr) as [Hwf1 ->]. done.
  - destruct ((h <- get_history sid ;; read h) st) as [st1 r] eqn:Hr.
    injection Hq as <- <-.
    destruct (get_history_sim _ _ _ _ Hwf Hr) as [Hwf1 ->]. done.
  - destruct (clear_memory sid st) as [st1 r] eqn:Hr. injection Hq as <- <-.
    destruct (clear_memory_sim _ _ _ _ Hwf Hr) as [Hwf1 ->]. done.
Qed.

Lemma run_ops_sim sid os st :
  wf st ->
  wf (run_ops sid os st).1 /\
  v_run_ops sid os (view st) = (view (run_ops sid os st).1, (run_ops sid os st).2).
Proof.
  revert st. induction os as [|o rest IH]; intros st Hwf; simpl; [done|].
  destruct (run_op sid o st) as [st1 out] eqn:Ho.
  destruct (run_op_sim _ _ _ _ _ Hwf Ho) as [Hwf1 ->].
  destruct (IH st1 Hwf1) as [Hwf2 ->].
  destruct (run_ops sid rest st1) as [st2 outs]. done.
Qed.

(** *** The by-value operations touch one key only *)

Lemma v_run_op_other s1 s2 o s m :
  s1 <> s2 -> (v_run_op s1 o (s, m)).1.2 !! s2 = m !! s2.
Proof.
  intros Hne. destruct o as [question| |]; simpl.
  - destruct (query_setup s) as [s1' [[llm retriever]|e]]; [|done].
    destruct (call (EvRetrieverInvoke question) _ s1') as [s2' [docs|e]];
      [|by simpl; rewrite lookup_insert_ne].
    destruct (call (EvChainInvoke _ _ _) _ s2') as [s3' [a|e]];
      simpl; by rewrite !lookup_insert_ne.
  - by rewrite lookup_insert_ne.
  - destruct (m !! s1); simpl; [by rewrite lookup_delete_ne|done].
Qed.

Lemma v_run_op_local s1 o s m m' :
  m !! s1 = m' !! s1 ->
  (v_run_op s1 o (s, m)).2 = (v_run_op s1 o (s, m')).2 /\
  (v_run_op s1 o (s, m)).1.1 = (v_run_op s1 o (s, m')).1.1 /\
  (v_run_op s1 o (s, m)).1.2 !! s1 = (v_run_op s1 o (s, m')).1.2 !! s1.
Proof.
  intros Hm. destruct o as [question| |]; simpl; rewrite <- ?Hm.
  - destruct (query_setup s) as [s1' [[llm retriever]|e]]; [|done].
    destruct (call (EvRetrieverInvoke question) _ s1') as [s2' [docs|e]];
      [|by simpl; rewrite !lookup_insert_eq].
    destruct (call (EvChainInvoke _ _ _) _ s2') as [s3' [a|e]];
      simpl; by rewrite !lookup_insert_eq.
  - by rewrite !lookup_insert_eq.
  - destruct (m !! s1) eqn:Hs; simpl;
      [by rewrite !lookup_delete_eq | repeat split; congruence].
Qed.

Lemma v_run_ops_other s1 s2 os s m :
  s1 <> s2 -> (v_run_ops s1 os (s, m)).1.2 !! s2 = m !! s2.
Proof.
  intros Hne. revert s m. induction os as [|o rest IH]; intros s m; simpl; [done|].
  pose proof (v_run_op_other s1 s2 o s m Hne) as Ho.
  destruct (v_run_op s1 o (s, m)) as [[s' m'] out].
  specialize (IH s' m'). destruct (v_run_ops s1 rest (s', m')) as [v2 outs].
  simpl in *. congruence.
Qed.

Lemma v_run_ops_local s1 os s m m' :
  m !! s1 = m' !! s1 ->
  (v_run_ops s1 os (s, m)).2 = (v_run_ops s1 os (s, m')).2.
Proof.
  revert s m m'. induction os as [|o rest IH]; intros s m m' Hm; simpl; [done|].
  destruct (v_run_op_local s1 o s m m' Hm) as (Hout & Hsys & Hkey).
  destruct (v_run_op s1 o (s, m)) as [[sa ma] outa].
  destruct (v_run_op s1 o (s, m')) as [[sb mb] outb]. simpl in *. subst.
  specialize (IH sb ma mb Hkey).
  destruct (v_run_ops s1 rest (sb, ma)) as [va outsa].
  destruct (v_run_ops s1 rest (sb, mb)) as [vb outsb]. simpl in *. congruence.
Qed.

(** *** Slices *)

Lemma last_n_length {A} n (l : list A) : length (last_n n l) = min n (length l).
Proof. unfold last_n. rewrite length_drop. lia. Qed.

Lemma last_n_all {A} n (l : list A) : length l <= n -> last_n n l = l.
Proof. intros Hn. unfold last_n. by replace (length l - n) with 0 by lia. Qed.

Lemma last_n_suffix {A} n (l : list A) :
  l = take (length l - n) l ++ last_n n l.
Proof. unfold last_n. by rewrite take_drop. Qed.

Lemma last_n_app_ge {A} n (a b : list A) :
  n <= length b -> last_n n (a ++ b) = last_n n b.
Proof.
  intros Hn. unfold last_n. rewrite length_app.
  replace (length a + length b - n) with (length a + (length b - n)) by lia.
  by rewrite <- drop_drop, drop_app_length.
Qed.

Lemma last_n_app {A} n (l x : list A) :
  last_n n (last_n n l ++ x) = last_n n (l ++ x).
Proof.
  destruct (decide (length l <= n)) as [Hle|Hgt].
  - by rewrite (last_n_all n l).
  - rewrite (last_n_suffix n l) at 2. rewrite <- app_assoc.
    symmetry. apply last_n_app_ge. rewrite length_app, last_n_length. lia.
Qed.

Lemma trimmed_last_n now : trimmed now = last_n 20 now.
Proof.
  unfold trimmed. destruct (20 <? length now) eqn:Hlt; [done|].
  apply Nat.ltb_ge in Hlt. by rewrite last_n_all.
Qed.

Lemma exchanges_length qs answers :
  length qs = length answers -> length (exchanges qs answers) = 2 * length qs.
Proof.
  revert answers. induction qs as [|q qs IH]; intros [|a answers] Hlen;
    simpl in *; try done.
  rewrite IH by lia. lia.
Qed.

(** *** How a call of [query] ends *)

Lemma query_cases question sid st st' r :
  wf st -> query question sid st = (st', r) ->
  wf st' /\ query_outcome question sid st st' r.
Proof.
  intros Hwf Hq. destruct (query_sim _ _ _ _ _ Hwf Hq) as [Hwf' Hv].
  split; [done|]. clear Hq. unfold v_query, view in Hv.
  destruct (query_setup (sys st)) as [s1 [[llm retriever]|e]] eqn:Hsetup.
  2:{ injection Hv as Hs Hm <-. apply SetupFailed; congruence. }
  fold (turns st sid) in Hv.
  destruct (call (EvRetrieverInvoke question) _ s1) as [s2 [docs|e]] eqn:Hret.
  2:{ injection Hv as Hs Hm <-. eapply RetrievalFailed; [done| |done]. by rewrite <- Hs. }
  destruct (call (EvChainInvoke _ _ _) _ s2) as [s3 [a|e]] eqn:Hgen.
  2:{ injection Hv as Hs Hm <-.
      eapply GenerationFailed; [done|done| |done]. by rewrite <- Hs. }
  injection Hv as Hs Hm <-.
  eapply QueryAnswered; [done|done| |]; [by rewrite <- Hs|].
  by rewrite <- Hm, insert_insert_eq, trimmed_last_n.
Qed.

Lemma query_ok_turns question sid st st' r :
  wf st -> query question sid st = (st', Ok r) ->
  wf st' /\
  turns st' sid = last_n 20 (turns st sid ++ exchange question (answer r)).
Proof.
  intros Hwf Hq. destruct (query_cases _ _ _ _ _ Hwf Hq) as [Hwf' Hout].
  split; [done|]. inversion Hout as [| | |s1 llm retriever s2 docs a _ _ _ Hm Hr].
  simpl. unfold turns at 1. by rewrite Hm, lookup_insert_eq.
Qed.

Lemma query_all_turns qs sid st st' answers :
  wf st -> length (turns st sid) <= 20 ->
  query_all qs sid st = (st', Ok answers) ->
  wf st' /\ length answers = length qs /\
  turns st' sid = last_n 20 (turns st sid ++ exchanges qs answers).
Proof.
  revert st answers. induction qs as [|q qs IH]; intros st answers Hwf Hlen Hq.
  - injection Hq as <- <-. simpl. by rewrite app_nil_r, last_n_all.
  - simpl in Hq. unfold bind at 1 in Hq.
    destruct (query q sid st) as [st1 [r|e]] eqn:Hq1; [|done].
    destruct (query_ok_turns _ _ _ _ _ Hwf Hq1) as [Hwf1 Ht1].
    unfold bind at 1 in Hq.
    destruct (query_all qs sid st1) as [st2 [rest|e]] eqn:Hq2; [|done].
    injection Hq as <- <-.
    assert (Hlen1 : length (turns st1 sid) <= 20).
    { rewrite Ht1, last_n_length. lia. }
    destruct (IH _ _ Hwf1 Hlen1 Hq2) as (Hwf2 & Hn & Ht2).
    split; [done|]. split; [simpl; lia|].
    rewrite Ht2, Ht1, last_n_app, <- app_assoc. done.
Qed.

(** C1.  A successful [query(question, session_id)] appends the human turn
    and then the assistant turn to the history of that session and keeps the
    last 20 turns of the result: what is dropped is a prefix, the oldest
    turns, and the new pair always stays.  Eleven successful queries on a
    session that starts without turns leave exactly 20 turns, those of the
    second to the eleventh exchange: the first pair is gone. *)
Theorem query_appends_pair_and_trims (sid : string) (st : State) :
  wf st ->
  (forall question st' r,
      query question sid st = (st', Ok r) ->
      let appended := turns st sid ++ [("human", question); ("assistant", answer r)] in
      turns st' sid = last_n 20 appended /\
      length (turns st' sid) = min 20 (length appended) /\
      (exists evicted, appended = evicted ++ turns st' sid) /\
      (exists kept, turns st' sid = kept ++ [("human", question); ("assistant", answer r)])) /\
  (forall questions st' answers,
      turns st sid = [] -> length questions = 11 ->
      query_all questions sid st = (st', Ok answers) ->
      length (turns st' sid) = 20 /\
      turns st' sid = exchanges (drop 1 questions) (drop 1 answers)).
Proof.
  intros Hwf. split.
  - intros question st' r Hq appended.
    destruct (query_ok_turns _ _ _ _ _ Hwf Hq) as [_ Ht].
    fold (exchange question (answer r)) in appended.
    change (turns st' sid = last_n 20 appended) in Ht.
    split; [done|]. split; [by rewrite Ht, last_n_length|]. split.
    + exists (take (length appended - 20) appended). rewrite Ht. apply last_n_suffix.
    + rewrite Ht. subst appended.
      exists (last_n 18 (turns st sid)). unfold last_n.
      rewrite length_app. simpl.
      destruct (decide (length (turns st sid) <= 18)) as [Hle|Hgt].
      * replace (length (turns st sid) + 2 - 20) with 0 by lia.
        replace (length (turns st sid) - 18) with 0 by lia. done.
      * replace (length (turns st sid) + 2 - 20)
          with (length (turns st sid) - 18) by lia.
        apply drop_app_le. lia.
  - intros questions st' answers Hnil Hlen Hq.
    assert (Hlen0 : length (turns st sid) <= 20) by (rewrite Hnil; simpl; lia).
    destruct (query_all_turns _ _ _ _ _ Hwf Hlen0 Hq) as (_ & Hn & Ht).
    rewrite Hnil in Ht. simpl in Ht. rewrite Ht.
    destruct questions as [|q questions]; [done|].
    destruct answers as [|a answers]; [done|].
    simpl in Hlen, Hn.
    change (drop 1 (q :: questions)) with questions.
    change (drop 1 (a :: answers)) with answers.
    assert (Hex : length (exchanges questions answers) = 20).
    { rewrite exchanges_length by lia. lia. }
    split.
    + rewrite last_n_length. simpl. rewrite Hex. lia.
    + change (exchanges (q :: questions) (a :: answers))
        with (exchange q a ++ exchanges questions answers).
      rewrite last_n_app_ge by lia. apply last_n_all. lia.
Qed.

(** C2.  When [query] raises, whichever call raised (building the clients,
    retrieval, or generation), every session has the turns it had before:
    the pair is appended only after the chain has returned. *)
Theorem query_failure_keeps_turns (question sid : string) (st st' : State) (e : exn) :
  wf st -> query question sid st = (st', Raise e) ->
  forall s, turns st' s = turns st s.
Proof.
  intros Hwf Hq s. destruct (query_cases _ _ _ _ _ Hwf Hq) as [_ Hout].
  unfold turns at 1.
  inversion Hout as [e0 _ Hm|s1 llm retriever e0 _ _ Hm
                    |s1 llm retriever s2 docs e0 _ _ _ Hm|]; subst; rewrite Hm.
  - done.
  - rewrite lookup_insert. case_decide; [by subst|done].
  - rewrite lookup_insert. case_decide; [by subst|done].
Qed.

(** C10.  For a session id that is not in the map, a [query] whose clients
    were built and which then raises (in retrieval or in generation) leaves
    the id registered with an empty list, so that [clear_memory] on it
    returns [True]. *)
Theorem failed_query_registers_session
    (question sid : string) (st st' : State) (e : exn) s1 llm retriever :
  wf st -> _session_histories st !! sid = None ->
  query_setup (sys st) = (s1, Ok (llm, retriever)) ->
  query question sid st = (st', Raise e) ->
  (exists l, _session_histories st' !! sid = Some l /\ objs st' !! l = Some []) /\
  (exists st'', clear_memory sid st' = (st'', Ok true) /\
                _session_histories st'' !! sid = None).
Proof.
  intros Hwf Hnone Hsetup Hq.
  destruct (query_cases _ _ _ _ _ Hwf Hq) as [Hwf' Hout].
  assert (Hnil : turns st sid = []).
  { unfold turns. by rewrite (proj1 (sessions_lookup_None st sid Hwf) Hnone). }
  assert (Hm : sessions st' !! sid = Some []).
  { inversion Hout as [e0 Hs Hm|s1' llm' retriever' e0 _ _ Hm
                      |s1' llm' retriever' s2 docs e0 _ _ _ Hm|]; subst.
    - rewrite Hsetup in Hs. discriminate.
    - by rewrite Hm, lookup_insert_eq, Hnil.
    - by rewrite Hm, lookup_insert_eq, Hnil. }
  rewrite sessions_lookup in Hm.
  destruct (_session_histories st' !! sid) as [l|] eqn:Hl; [|done]. simpl in Hm.
  split; [by exists l|].
  unfold clear_memory, bind, gets, dict_del, modify, ret. rewrite Hl.
  eexists. split; [reflexivity|]. simpl. apply lookup_delete_eq.
Qed.

Lemma query_answers question sid st s1 llm retriever s2 docs s3 a :
  wf st ->
  query_setup (sys st) = (s1, Ok (llm, retriever)) ->
  call (EvRetrieverInvoke question) (retriever_invoke retriever question) s1
    = (s2, Ok docs) ->
  call (EvChainInvoke (prompt_messages (turns st sid)) (format_docs docs) question)
       (chain_invoke llm (prompt_messages (turns st sid)) (format_docs docs) question)
       s2 = (s3, Ok a) ->
  exists st', query question sid st
              = (st', Ok {| answer := a; sources := map source_of docs |}).
Proof.
  intros Hwf Hsetup Hret Hgen.
  destruct (query question sid st) as [st' r] eqn:Hq. exists st'. f_equal.
  destruct (query_cases _ _ _ _ _ Hwf Hq) as [_ Hout].
  inversion Hout as [e Hs _|s1' llm' r' e Hs Hr _
                    |s1' llm' r' s2' docs' e Hs Hr Hg _
                    |s1' llm' r' s2' docs' a' Hs Hr Hg _]; subst;
    rewrite Hsetup in Hs; try discriminate; injection Hs as <- <- <-;
    rewrite Hret in Hr; try discriminate; injection Hr as <- <-;
    rewrite Hgen in Hg; try discriminate. by injection Hg as _ <-.
Qed.

(** C7.  Whenever the clients are built, retrieval returns and the model
    answers, [query] returns, and in what it returns [sources] has one
    entry per retrieved document, in retrieval order, and no other.  The
    entry has the document's ["source"] and ["type"] (["Unknown"] when the
    metadata lacks the key), and as [content_preview] the whole content when
    that has at most 200 characters, and otherwise its first 200 characters
    followed by three dots: the content cut where its 201st character
    starts. *)
Theorem query_sources_preview (question sid : string) (st : State) :
  wf st ->
  (forall s1 llm retriever s2 docs s3 a,
      query_setup (sys st) = (s1, Ok (llm, retriever)) ->
      call (EvRetrieverInvoke question) (retriever_invoke retriever question) s1
        = (s2, Ok docs) ->
      call (EvChainInvoke (prompt_messages (turns st sid)) (format_docs docs) question)
           (chain_invoke llm (prompt_messages (turns st sid)) (format_docs docs) question)
           s2 = (s3, Ok a) ->
      exists st', query question sid st
                  = (st', Ok {| answer := a; sources := map source_of docs |})) /\
  (forall st' r,
      query question sid st = (st', Ok r) ->
      exists s1 llm retriever s2 docs,
        query_setup (sys st) = (s1, Ok (llm, retriever)) /\
        call (EvRetrieverInvoke question) (retriever_invoke retriever question) s1
          = (s2, Ok docs) /\
        sources r = map source_of docs) /\
  (forall doc,
      source (source_of doc) = default "Unknown" (metadata doc !! "source") /\
      type (source_of doc) = default "Unknown" (metadata doc !! "type") /\
      (py_len (page_content doc) <= 200 ->
       content_preview (source_of doc) = page_content doc) /\
      (200 < py_len (page_content doc) ->
       exists head rest,
         page_content doc = head +:+ rest /\ py_len head = 200 /\ at_character rest /\
         content_preview (source_of doc) = head +:+ "...")).
Proof.
  intros Hwf. split; [|split].
  - intros s1 llm retriever s2 docs s3 a Hs Hr Hg.
    exact (query_answers question sid st s1 llm retriever s2 docs s3 a Hwf Hs Hr Hg).
  - intros st' r Hq. destruct (query_cases _ _ _ _ _ Hwf Hq) as [_ Hout].
    inversion Hout as [| | |s1 llm retriever s2 docs a Hs Hr _ _ Ha]; subst.
    by exists s1, llm, retriever, s2, docs.
  - intros doc. split; [done|]. split; [done|]. unfold source_of. simpl. split.
    + intros Hle. apply Nat.ltb_ge in Hle. by rewrite Hle.
    + intros Hlt. pose proof Hlt as Hlt'. apply Nat.ltb_lt in Hlt'. rewrite Hlt'.
      destruct (py_prefix_split 200 (page_content doc)) as (rest & Hsplit & Hat).
      exists (py_prefix 200 (page_content doc)), rest.
      split; [exact Hsplit|]. split; [apply py_prefix_len; lia|].
      split; [by apply Hat|done].
Qed.

(** C8.  For two different session ids, requests on the first ([query],
    [get_history], [clear_memory], in any number and order) leave what is
    stored under the second as it was, and what they return does not depend
    on it: two processes that agree on the gateway and on the first
    session's own entry get the same sequence of results. *)
Theorem session_isolation (s1 s2 : string) (os : list op) :
  s1 <> s2 ->
  (forall st, wf st ->
     sessions (run_ops s1 os st).1 !! s2 = sessions st !! s2 /\
     turns (run_ops s1 os st).1 s2 = turns st s2) /\
  (forall sta stb, wf sta -> wf stb ->
     sys sta = sys stb -> sessions sta !! s1 = sessions stb !! s1 ->
     (run_ops s1 os sta).2 = (run_ops s1 os stb).2).
Proof.
  intros Hne. split.
  - intros st Hwf. destruct (run_ops_sim s1 os st Hwf) as [_ Hv].
    pose proof (v_run_ops_other s1 s2 os (sys st) (sessions st) Hne) as Ho.
    unfold view in Hv. rewrite Hv in Ho. simpl in Ho.
    split; [done|]. unfold turns. by rewrite Ho.
  - intros sta stb Hwfa Hwfb Hsys Hkey.
    destruct (run_ops_sim s1 os sta Hwfa) as [_ Hva].
    destruct (run_ops_sim s1 os stb Hwfb) as [_ Hvb].
    pose proof (v_run_ops_local s1 os (sys stb) (sessions sta) (sessions stb) Hkey) as Hl.
    unfold view in Hva, Hvb. rewrite <- Hsys in Hl at 1.
    rewrite Hva, Hvb in Hl. done.
Qed.

(** C6, as the code has it.  [query] never looks at whether [question] is
    empty.  It raises only what building the clients, [retriever.invoke] or
    the chain raised, and when these return it returns the answer, for the
    empty question as for any other.  With [session_id] omitted the session
    is ["default"]. *)
Theorem query_checks_no_question :
  (forall question st, query_default question st = query question "default" st) /\
  (forall question sid st st' e,
      wf st -> query question sid st = (st', Raise e) ->
      (exists s1, query_setup (sys st) = (s1, Raise e)) \/
      (exists s1 llm retriever s2,
          query_setup (sys st) = (s1, Ok (llm, retriever)) /\
          call (EvRetrieverInvoke question) (retriever_invoke retriever question) s1
            = (s2, Raise e)) \/
      (exists s1 llm retriever s2 docs s3,
          query_setup (sys st) = (s1, Ok (llm, retriever)) /\
          call (EvRetrieverInvoke question) (retriever_invoke retriever question) s1
            = (s2, Ok docs) /\
          call (EvChainInvoke (prompt_messages (turns st sid)) (format_docs docs) question)
               (chain_invoke llm (prompt_messages (turns st sid)) (format_docs docs) question)
               s2 = (s3, Raise e))) /\
  (forall sid st s1 llm retriever s2 docs s3 a,
      wf st ->
      query_setup (sys st) = (s1, Ok (llm, retriever)) ->
      call (EvRetrieverInvoke "") (retriever_invoke retriever "") s1 = (s2, Ok docs) ->
      call (EvChainInvoke (prompt_messages (turns st sid)) (format_docs docs) "")
           (chain_invoke llm (prompt_messages (turns st sid)) (format_docs docs) "")
           s2 = (s3, Ok a) ->
      exists st', query "" sid st
                  = (st', Ok {| answer := a; sources := map source_of docs |})).
Proof.
  split; [done|]. split.
  - intros question sid st st' e Hwf Hq.
    destruct (query_cases _ _ _ _ _ Hwf Hq) as [_ Hout].
    inversion Hout as [e0 Hs _|s1 llm r e0 Hs Hr _
                      |s1 llm r s2 docs e0 Hs Hr Hg _|]; subst.
    + left. eauto.
    + right. left. eauto 10.
    + right. right. eauto 10.
  - intros sid st s1 llm retriever s2 docs s3 a. apply query_answers.
Qed.

(** [clear_memory] on a registered session returns [True] and removes it,
    so that the session then has no turns; called again it returns [False]. *)
Theorem clear_memory_twice (sid : string) (st : State) :
  wf st -> is_Some (sessions st !! sid) ->
  exists st1 st2,
    clear_memory sid st = (st1, Ok true) /\
    turns st1 sid = [] /\
    clear_memory sid st1 = (st2, Ok false).
Proof.
  intros Hwf Hsome.
  destruct (clear_memory_run st sid Hwf) as (st1 & Hrun1 & Hwf1 & _ & Hv1).
  destruct (clear_memory_run st1 sid Hwf1) as (st2 & Hrun2 & _).
  rewrite bool_decide_eq_true_2 in Hrun1 by done.
  rewrite Hv1, lookup_delete_eq in Hrun2.
  rewrite bool_decide_eq_false_2 in Hrun2 by (intros [? ?]; done).
  exists st1, st2. split; [done|]. split; [|done].
  unfold turns. by rewrite Hv1, lookup_delete_eq.
Qed.

End facts.

(** *** The theorems at work on the in-memory services *)
Import in_memory.
#[local] Existing Instance services.

Lemma wf_st_s2 : wf st_s2.
Proof.
  destruct (query "What is the capital of Italy?" "s2" st0) as [st' r] eqn:Hq.
  pose proof (query_cases _ _ _ _ _ (wf_initial world0) Hq) as [Hwf _].
  unfold st_s2. fold st0. by rewrite Hq.
Qed.

(** C1 on the in-memory services: the first query of a session leaves its
    two turns, and eleven queries leave the twenty turns of the last ten. *)
Lemma query_appends_pair_and_trims_witness :
  turns (query "q1" "s1" st0).1 "s1" = [("human", "q1"); ("assistant", "q1")] /\
  (length (turns (query_all eleven "s1" st0).1 "s1") = 20 /\
   turns (query_all eleven "s1" st0).1 "s1"
     = exchanges (drop 1 eleven) (drop 1 eleven)).
Proof.
  pose proof (query_appends_pair_and_trims "s1" st0 (wf_initial world0)) as [H1 H11].
  assert (Hq : query "q1" "s1" st0 = ((query "q1" "s1" st0).1, Ok (echoed "q1")))
    by (vm_compute; reflexivity).
  assert (Hqs : query_all eleven "s1" st0
                = ((query_all eleven "s1" st0).1, Ok eleven))
    by (vm_compute; reflexivity).
  assert (Hnil : turns st0 "s1" = []) by (vm_compute; reflexivity).
  split.
  - etransitivity; [exact (proj1 (H1 _ _ _ Hq))|]. rewrite Hnil. reflexivity.
  - exact (H11 eleven _ _ Hnil eq_refl Hqs).
Defined.

(** C2 when the model is down. *)
Lemma query_failure_keeps_turns_witness :
  turns (query "q1" "s1" st_llm_down).1 "s1" = turns st_llm_down "s1".
Proof.
  assert (Hq : query "q1" "s1" st_llm_down
               = ((query "q1" "s1" st_llm_down).1,
                  Raise (Exception "GenerationBackendError")))
    by (vm_compute; reflexivity).
  exact (query_failure_keeps_turns "q1" "s1" st_llm_down _ _ (wf_initial _) Hq "s1").
Defined.

(** C10 when retrieval is down. *)
Lemma failed_query_registers_session_witness :
  exists st'', clear_memory "s1" (query "q1" "s1" st_retrieval_down).1 = (st'', Ok true) /\
               _session_histories st'' !! "s1" = None.
Proof.
  assert (Hnone : _session_histories st_retrieval_down !! "s1" = None)
    by (vm_compute; reflexivity).
  assert (Hsetup : query_setup (sys st_retrieval_down)
                   = ((query_setup (sys st_retrieval_down)).1, Ok (tt, 4%Z)))
    by (vm_compute; reflexivity).
  assert (Hq : query "q1" "s1" st_retrieval_down
               = ((query "q1" "s1" st_retrieval_down).1,
                  Raise (Exception "RetrievalBackendError")))
    by (vm_compute; reflexivity).
  exact (proj2 (failed_query_registers_session "q1" "s1" st_retrieval_down _ _ _ _ _
                  (wf_initial _) Hnone Hsetup Hq)).
Defined.

(** C7 on the first query of a process whose index holds the records about
    Paris and Berlin, and on three longer contents: 201 letters, 100
    characters of three bytes each, and 201 characters of two bytes each. *)
Lemma query_sources_preview_witness :
  (exists st',
      query "What is the capital of France?" "s1" st0
      = (st', Ok {| answer := "What is the capital of France?";
                    sources :=
                      [{| source := "geo.pdf"; type := "pdf";
                          content_preview := "Paris is the capital of France." |};
                       {| source := "geo.pdf"; type := "pdf";
                          content_preview := "Berlin is the capital of Germany." |}] |})) /\
  content_preview (source_of (doc (times 100 "中") "cn.pdf")) = times 100 "中" /\
  content_preview (source_of (doc (times 201 "a") "a.pdf")) = times 200 "a" +:+ "..." /\
  content_preview (source_of (doc (times 201 "é") "e.pdf")) = times 200 "é" +:+ "...".
Proof.
  assert (Hs : query_setup (sys st0) = ((query_setup (sys st0)).1, Ok (tt, 4%Z)))
    by (vm_compute; reflexivity).
  assert (Hr : call (EvRetrieverInvoke "What is the capital of France?")
                 (retriever_invoke 4%Z "What is the capital of France?")
                 (query_setup (sys st0)).1
               = ((call (EvRetrieverInvoke "What is the capital of France?")
                     (retriever_invoke 4%Z "What is the capital of France?")
                     (query_setup (sys st0)).1).1,
                  Ok [paris; doc "Berlin is the capital of Germany." "geo.pdf"]))
    by (vm_compute; reflexivity).
  destruct (query_sources_preview "What is the capital of France?" "s1" st0 (wf_initial _))
    as (Hreturns & _ & Hdoc).
  split; [|split; [|split]].
  - refine (Hreturns _ tt 4%Z _ _ _ "What is the capital of France?" Hs Hr _).
    vm_compute. reflexivity.
  - apply (Hdoc (doc (times 100 "中") "cn.pdf")). vm_compute. lia.
  - vm_compute. reflexivity.
  - vm_compute. reflexivity.
Defined.

(** C8 with a session ["s2"] that holds two turns. *)
Lemma session_isolation_witness :
  turns (run_ops "s1" [Query "q1"; GetHistory; ClearMemory; Query "q2"] st_s2).1 "s2"
  = turns st_s2 "s2".
Proof.
  assert (Hne : "s1" <> "s2") by (intros Heq; discriminate Heq).
  exact (proj2 (proj1 (session_isolation "s1" "s2"
                         [Query "q1"; GetHistory; ClearMemory; Query "q2"] Hne)
                  st_s2 wf_st_s2)).
Defined.

(** Clearing session ["s2"], which holds one exchange, twice. *)
Lemma clear_memory_twice_witness :
  exists st1 st2,
    clear_memory "s2" st_s2 = (st1, Ok true) /\
    turns st1 "s2" = [] /\
    clear_memory "s2" st1 = (st2, Ok false).
Proof.
  assert (Hsome : is_Some (sessions st_s2 !! "s2")).
  { exists [("human", "What is the capital of Italy?");
            ("assistant", "What is the capital of Italy?")].
    vm_compute. reflexivity. }
  exact (clear_memory_twice "s2" st_s2 wf_st_s2 Hsome).
Defined.

(** C6 as stated fails: the empty question is answered, and the exchange is
    recorded. *)
Lemma query_accepts_empty_question :
  (query "" "s1" st0).2 = Ok (echoed "") /\
  turns (query "" "s1" st0).1 "s1" = [("human", ""); ("assistant", "")].
Proof. split; vm_compute; reflexivity. Qed.

(** C6 on the in-memory services. *)
Lemma query_checks_no_question_witness :
  exists st', query "" "s1" st0 = (st', Ok (echoed "")).
Proof.
  assert (Hsetup : query_setup (sys st0) = ((query_setup (sys st0)).1, Ok (tt, 4%Z)))
    by (vm_compute; reflexivity).
  assert (Hret : call (EvRetrieverInvoke "") (retriever_invoke 4%Z "")
                   (query_setup (sys st0)).1
                 = ((call (EvRetrieverInvoke "") (retriever_invoke 4%Z "")
                       (query_setup (sys st0)).1).1,
                    Ok (records_in "" (mem_index world0))))
    by (vm_compute; reflexivity).
  exact (proj2 (proj2 query_checks_no_question) "s1" st0 _ _ _ _ _
           (call (EvChainInvoke (prompt_messages (turns st0 "s1"))
                    (format_docs (records_in "" (mem_index world0))) "")
                 (chain_invoke tt (prompt_messages (turns st0 "s1"))
                    (format_docs (records_in "" (mem_index world0))) "")
                 (call (EvRetrieverInvoke "") (retriever_invoke 4%Z "")
                    (query_setup (sys st0)).1).1).1
           "" (wf_initial _) Hsetup Hret eq_refl).
Defined.

End rag_chain_facts.

(** ** Facts about app/document_loader.py *)
Module document_loader_facts.
Import document_loader.





End document_loader_facts.

(** ** Facts about app/vector_store.py *)
Module vector_store_facts.
Import vector_store.
Section facts.
Context {X : External}.

Lemma call_log {A} ev (f : World -> World * res A) s s' r :
  call ev f s = (s', r) -> log s' = log s ++ [ev].
Proof.
  unfold call. destruct (f (ext s)) as [w r']. intros Hc. by injection Hc as <- _.
Qed.

Lemma delete_namespaces_log index keys s s' :
  delete_namespaces index keys s = (s', Ok tt) ->
  log s' = log s ++ map EvDelete (List.filter truthy keys).
Proof.
  revert s. induction keys as [|k keys IH]; intros s Hd; simpl in Hd |- *.
  - injection Hd as <-. by rewrite app_nil_r.
  - unfold bind at 1 in Hd. destruct (truthy k).
    + destruct (call (EvDelete k) _ s) as [s1 [[]|e]] eqn:Hc; [|done].
      apply call_log in Hc. apply IH in Hd. rewrite Hd, Hc, <- app_assoc. done.
    + unfold ret in Hd. by apply IH in Hd.
Qed.

Lemma delete_all_records_trace s s' r :
  delete_all_records s = (s', Ok r) ->
  exists s0 pc s1 index s2 stats,
    init_pinecone s = (s0, Ok pc) /\
    call (EvIndex (index_name_of s0)) (pc_Index pc (index_name_of s0)) s0 = (s1, Ok index) /\
    call EvDescribeIndexStats (index_describe_index_stats index) s1 = (s2, Ok stats) /\
    log s' = log s1 ++ [EvDescribeIndexStats] ++ [EvDelete ""]
               ++ map EvDelete (List.filter truthy (stats_namespace_keys stats)) /\
    r = {| deleted := true;
           previous_vector_count := from_option id 0%Z (total_vector_count stats) |}.
Proof.
  unfold delete_all_records. intros Hd. unfold bind at 1 in Hd.
  destruct (init_pinecone s) as [s0 [pc|e]]; [|done].
  unfold bind at 1, os_getenv_default, bind at 1, os_getenv, gets, ret in Hd.
  fold (index_name_of s0) in Hd. unfold bind at 1 in Hd.
  destruct (call (EvIndex _) _ s0) as [s1 [index|e]] eqn:Hi; [|done].
  unfold bind at 1 in Hd.
  destruct (call EvDescribeIndexStats _ s1) as [s2 [stats|e]] eqn:Hs; [|done].
  unfold bind at 1 in Hd.
  destruct (call (EvDelete "") _ s2) as [s3 [[]|e]] eqn:Hd0; [|done].
  unfold bind at 1 in Hd.
  destruct (delete_namespaces index _ s3) as [s4 [[]|e]] eqn:Hn; [|done].
  injection Hd as <- <-.
  exists s0, pc, s1, index, s2, stats. repeat split; try done.
  apply delete_namespaces_log in Hn. apply call_log in Hd0, Hs.
  rewrite Hn, Hd0, Hs, <- !app_assoc. done.
Qed.


End facts.

Import in_memory.
#[local] Existing Instance services.

(** The in-memory index: what [delete_namespaces] leaves. *)
Lemma mem_delete_namespaces keys (s : Sys) :
  exists s',
    delete_namespaces (X := services) tt keys s = (s', Ok tt) /\
    mem_index (ext s') = drop_namespaces keys (mem_index (ext s)).
Proof.
  revert s. induction keys as [|k keys IH]; intros s; simpl.
  - by exists s.
  - unfold bind at 1. destruct (truthy k); simpl.
    + match goal with
      | |- context [delete_namespaces _ keys ?s1] =>
          destruct (IH s1) as (s' & Hrun & Hidx)
      end.
      exists s'. by rewrite Hrun, Hidx.
    + apply IH.
Qed.

Lemma drop_namespaces_subset keys idx p :
  p ∈ drop_namespaces keys idx -> p ∈ idx /\ (p.1 ∈ keys -> p.1 = "").
Proof.
  revert idx. unfold drop_namespaces.
  induction keys as [|k keys IH]; intros idx Hp; simpl in Hp.
  - split; [done|]. intros Hk. by apply elem_of_nil in Hk.
  - apply IH in Hp as [Hp Hkeys]. destruct (truthy k) eqn:Hk.
    + unfold drop_namespace in Hp. apply list_elem_of_filter in Hp as [Hne Hp].
      split; [done|]. intros [Heq|Hin]%elem_of_cons; [by destruct Hne|auto].
    + split; [done|]. intros [Heq|Hin]%elem_of_cons; [|auto].
      rewrite Heq. by destruct k.
Qed.

Lemma drop_all_namespaces idx :
  drop_namespaces (stats_namespace_keys (stats_of idx)) (drop_namespace "" idx) = [].
Proof.
  apply elem_of_nil_inv. intros p Hp.
  apply drop_namespaces_subset in Hp as [Hp Hkeys].
  unfold drop_namespace in Hp. apply list_elem_of_filter in Hp as [Hne Hp].
  apply Hne, Hkeys. unfold stats_namespace_keys, stats_of. simpl.
  rewrite <- list_fmap_compose. apply list_elem_of_fmap. by exists p.
Qed.

Lemma mem_delete_all_records (s : Sys) :
  exists s',
    delete_all_records (X := services) s =
      (s', Ok {| deleted := true;
                 previous_vector_count := count_all (mem_index (ext s)) |}) /\
    mem_index (ext s') = [].
Proof.
  unfold delete_all_records, init_pinecone.
  unfold bind at 1, bind at 1, gets.
  destruct (_pinecone_client s) as [[]|];
    unfold bind, os_getenv_default, os_getenv, gets, ret, modify, call; simpl;
    match goal with
    | |- context [delete_namespaces _ ?keys ?s1] =>
        destruct (mem_delete_namespaces keys s1) as (s4 & Hrun & Hidx)
    end;
    rewrite Hrun; eexists; (split; [reflexivity|]);
    rewrite Hidx; apply drop_all_namespaces.
Qed.

(** C9.  [delete_all_records] first reads the index statistics, then
    deletes the default namespace, then deletes every non-empty namespace
    key of those statistics in their order, and returns the total read at
    the start (0 when the statistics carry none).  On an index that reports
    every namespace it holds and empties a namespace on request, a second
    call right after the first reports 0. *)
Theorem delete_all_records_reads_then_deletes :
  (forall (X : External) (s s' : Sys) (r : Deletion),
      delete_all_records s = (s', Ok r) ->
      exists s0 pc s1 index s2 stats,
        init_pinecone s = (s0, Ok pc) /\
        call (EvIndex (index_name_of s0)) (pc_Index pc (index_name_of s0)) s0
          = (s1, Ok index) /\
        call EvDescribeIndexStats (index_describe_index_stats index) s1
          = (s2, Ok stats) /\
        log s' = log s1 ++ [EvDescribeIndexStats] ++ [EvDelete ""]
                   ++ map EvDelete (List.filter truthy (stats_namespace_keys stats)) /\
        r = {| deleted := true;
               previous_vector_count := from_option id 0%Z (total_vector_count stats) |}) /\
  (forall s : Sys (X := services),
      exists s1 s2,
        delete_all_records s =
          (s1, Ok {| deleted := true;
                     previous_vector_count := count_all (mem_index (ext s)) |}) /\
        delete_all_records s1 =
          (s2, Ok {| deleted := true; previous_vector_count := 0 |})).
Proof.
  split.
  - intros X s s' r. apply delete_all_records_trace.
  - intros s. destruct (mem_delete_all_records s) as (s1 & Hrun1 & Hidx1).
    destruct (mem_delete_all_records s1) as (s2 & Hrun2 & _).
    exists s1, s2. split; [done|]. by rewrite Hrun2, Hidx1.
Qed.

(** C9 on an index with three records in two namespaces: the first call
    reports 3 and issues the read and the deletes in the stated order, the
    second reports 0. *)
Lemma delete_all_records_reads_then_deletes_witness :
  (exists s1,
      (delete_all_records (rag_chain.sys st0)).2 =
        Ok {| deleted := true; previous_vector_count := 3 |} /\
      log (delete_all_records (rag_chain.sys st0)).1 =
        log s1 ++ [EvDescribeIndexStats] ++ [EvDelete ""]
          ++ map EvDelete (List.filter truthy ["" ; "archive"])) /\
  (exists s1 s2,
      delete_all_records (rag_chain.sys st0) =
        (s1, Ok {| deleted := true;
                   previous_vector_count := count_all (mem_index world0) |}) /\
      delete_all_records s1 =
        (s2, Ok {| deleted := true; previous_vector_count := 0 |})).
Proof.
  split.
  - assert (Hd : delete_all_records (rag_chain.sys st0)
                 = ((delete_all_records (rag_chain.sys st0)).1,
                    Ok {| deleted := true; previous_vector_count := 3 |}))
      by (vm_compute; reflexivity).
    destruct (proj1 delete_all_records_reads_then_deletes services _ _ _ Hd)
      as (s0 & pc & s1 & index & s2 & stats & H0 & H1 & H2 & Hlog & _).
    exists s1. split; [by rewrite Hd|].
    rewrite Hlog. do 3 f_equal.
    assert (Hst : stats = stats_of (mem_index world0)); [|by rewrite Hst].
    revert H1 H2. injection H0 as <- <-. intros H1. injection H1 as <- <-.
    intros H2. by injection H2 as <-.
  - exact (proj2 delete_all_records_reads_then_deletes (rag_chain.sys st0)).
Defined.



End vector_store_facts.

(** ** Further facts about app/vector_store.py: the lazily built clients *)
Module gateway_facts.
Import vector_store.
Section facts.
Context {X : External}.

(** Only an outside call adds to the log. *)
Lemma call_run {A} ev (f : World -> World * res A) s :
  call ev f s =
  ({| ext := (f (ext s)).1; _pinecone_client := _pinecone_client s;
      _vector_store := _vector_store s; _embeddings := _embeddings s;
      log := log s ++ [ev] |}, (f (ext s)).2).
Proof. unfold call. by destruct (f (ext s)). Qed.

Lemma init_pinecone_run s s' r :
  init_pinecone s = (s', r) ->
  _vector_store s' = _vector_store s /\ _embeddings s' = _embeddings s /\
  match r with
  | Ok pc =>
      _pinecone_client s' = Some pc /\
      (_pinecone_client s = Some pc /\ s' = s \/
       _pinecone_client s = None /\ log s' = log s ++ [EvPinecone])
  | Raise _ =>
      _pinecone_client s = None /\ _pinecone_client s' = None /\
      log s' = log s ++ [EvPinecone]
  end.
Proof.
  unfold init_pinecone, bind, gets, os_getenv, gets, modify, ret, call.
  destruct (_pinecone_client s) as [pc|] eqn:Hpc.
  - intros Hr. injection Hr as <- <-. rewrite Hpc. repeat split; auto.
  - destruct (Pinecone_new _ (ext s)) as [w [pc|e]];
      intros Hr; injection Hr as <- <-; simpl; repeat split; auto.
Qed.

Lemma get_embeddings_run s s' r :
  get_embeddings s = (s', r) ->
  _pinecone_client s' = _pinecone_client s /\ _vector_store s' = _vector_store s /\
  match r with
  | Ok e =>
      _embeddings s' = Some e /\
      (_embeddings s = Some e /\ s' = s \/
       _embeddings s = None /\ log s' = log s ++ [EvOpenAIEmbeddings])
  | Raise _ =>
      _embeddings s = None /\ _embeddings s' = None /\
      log s' = log s ++ [EvOpenAIEmbeddings]
  end.
Proof.
  unfold get_embeddings, bind, gets, os_getenv, gets, modify, ret, call.
  destruct (_embeddings s) as [e|] eqn:He.
  - intros Hr. injection Hr as <- <-. rewrite He. repeat split; auto.
  - destruct (OpenAIEmbeddings_new _ _ (ext s)) as [w [e|e]];
      intros Hr; injection Hr as <- <-; simpl; repeat split; auto.
Qed.

(** How [get_vector_store] ends when the store is not cached yet. *)
Lemma get_vector_store_build s s' r :
  _vector_store s = None -> get_vector_store s = (s', r) ->
  exists built,
    log s' = log s ++ built /\
    match r with
    | Ok vs =>
        _vector_store s' = Some vs /\
        is_Some (_pinecone_client s') /\ is_Some (_embeddings s') /\
        exists name,
          built = match _pinecone_client s with Some _ => [] | None => [EvPinecone] end
                    ++ match _embeddings s with Some _ => [] | None => [EvOpenAIEmbeddings] end
                    ++ [EvPineconeVectorStore name]
    | Raise _ =>
        _vector_store s' = None /\
        (_pinecone_client s = None /\ _pinecone_client s' = None /\
         _embeddings s' = _embeddings s /\ built = [EvPinecone]
         \/
         is_Some (_pinecone_client s') /\ _embeddings s = None /\
         _embeddings s' = None /\
         built = match _pinecone_client s with Some _ => [] | None => [EvPinecone] end
                   ++ [EvOpenAIEmbeddings]
         \/
         is_Some (_pinecone_client s') /\ is_Some (_embeddings s') /\
         exists name,
           built = match _pinecone_client s with Some _ => [] | None => [EvPinecone] end
                     ++ match _embeddings s with Some _ => [] | None => [EvOpenAIEmbeddings] end
                     ++ [EvPineconeVectorStore name])
    end.
Proof.
  intros Hnone. unfold get_vector_store. unfold bind at 1, gets. rewrite Hnone.
  unfold bind at 1.
  destruct (init_pinecone s) as [s0 [pc|e]] eqn:Hpc;
    apply init_pinecone_run in Hpc as (Hvs0 & Hemb0 & Hpc).
  2:{ intros Hr. injection Hr as <- <-. destruct Hpc as (Hn & Hn' & Hlog).
      exists [EvPinecone]. split; [done|]. split; [congruence|]. left. auto. }
  unfold bind at 1, os_getenv_default, bind at 1, os_getenv, gets, ret.
  unfold bind at 1.
  destruct (get_embeddings s0) as [s1 [emb|e]] eqn:Hemb;
    apply get_embeddings_run in Hemb as (Hpc1 & Hvs1 & Hemb).
  2:{ intros Hr. injection Hr as <- <-. destruct Hemb as (Hn & Hn' & Hlog).
      destruct Hpc as [Hpc0 [[Hc ->]|[Hc Hlog0]]].
      - exists [EvOpenAIEmbeddings]. split; [done|]. split; [congruence|].
        right. left. rewrite Hpc1, Hc. repeat split; eauto; congruence.
      - exists [EvPinecone; EvOpenAIEmbeddings].
        split; [by rewrite Hlog, Hlog0, <- app_assoc|]. split; [congruence|].
        right. left. rewrite Hpc1, Hpc0, Hc. repeat split; eauto; congruence. }
  unfold bind at 1, os_getenv, gets. unfold bind at 1. rewrite call_run.
  set (name := from_option id "rag-documents" _).
  set (made := PineconeVectorStore_new _ _ _ _).
  assert (Hbuilt : log s1 = log s
            ++ match _pinecone_client s with Some _ => [] | None => [EvPinecone] end
            ++ match _embeddings s with Some _ => [] | None => [EvOpenAIEmbeddings] end).
  { destruct Hpc as [_ [[Hc ->]|[Hc Hlog0]]], Hemb as [_ [[He ->]|[He Hlog1]]];
      rewrite ?Hemb0 in *; rewrite ?Hc, ?He; simpl; rewrite ?app_nil_r; try done.
    by rewrite Hlog1, Hlog0, <- app_assoc. }
  assert (Hpcs : is_Some (_pinecone_client s1)).
  { rewrite Hpc1. destruct Hpc as [-> _]. eauto. }
  assert (Hembs : is_Some (_embeddings s1)).
  { destruct Hemb as [-> _]. eauto. }
  destruct (made.2) as [vs|e] eqn:Hmade; unfold modify, ret;
    intros Hr; injection Hr as <- <-; simpl;
    (eexists; split; [rewrite Hbuilt, <- !app_assoc; reflexivity|]).
  - repeat split; eauto.
  - split; [congruence|]. right. right. repeat split; eauto.
Qed.

(** X2.  The three clients of the gateway are built at most once: a call of
    [init_pinecone], [get_embeddings] or [get_vector_store] that returns
    leaves its client cached, and the next call returns the same client
    without any outside call and without changing the state.  From then on
    [add_documents], [get_retriever] and [similarity_search] make one
    outside call each, the store's own. *)
Theorem clients_are_built_once (s s' : Sys) :
  (forall pc, init_pinecone s = (s', Ok pc) -> init_pinecone s' = (s', Ok pc)) /\
  (forall e, get_embeddings s = (s', Ok e) -> get_embeddings s' = (s', Ok e)) /\
  (forall vs, get_vector_store s = (s', Ok vs) ->
     get_vector_store s' = (s', Ok vs) /\
     (forall documents,
        add_documents documents s'
        = bind (call (EvAddDocuments documents) (vs_add_documents vs documents)) ret s') /\
     (forall k, get_retriever k s' = call (EvAsRetriever k) (vs_as_retriever vs k) s') /\
     (forall query k,
        similarity_search query k s'
        = call (EvSimilaritySearch query k) (vs_similarity_search vs query k) s')).
Proof.
  split; [|split].
  - intros pc Hr. apply init_pinecone_run in Hr as (_ & _ & Hc & _).
    unfold init_pinecone, bind, gets. by rewrite Hc.
  - intros e Hr. apply get_embeddings_run in Hr as (_ & _ & Hc & _).
    unfold get_embeddings, bind, gets. by rewrite Hc.
  - intros vs Hr.
    assert (Hc : _vector_store s' = Some vs).
    { destruct (_vector_store s) as [vs0|] eqn:Hvs.
      - unfold get_vector_store, bind, gets in Hr. rewrite Hvs in Hr.
        injection Hr as <- <-. done.
      - destruct (get_vector_store_build _ _ _ Hvs Hr) as (built & _ & Hc & _). done. }
    assert (Hagain : get_vector_store s' = (s', Ok vs)).
    { unfold get_vector_store, bind, gets. by rewrite Hc. }
    split; [done|].
    unfold add_documents, get_retriever, similarity_search.
    repeat split; intros; unfold bind at 1; by rewrite Hagain.
Qed.

(** X3.  A call of [get_vector_store] that raises caches no store, so the
    next call builds again; a client built before the failure stays cached.
    The call that raised is the last one made: the Pinecone client, or the
    embeddings, or the store itself. *)
Theorem failed_store_is_not_cached (s s' : Sys) (e : exn) :
  get_vector_store s = (s', Raise e) ->
  _vector_store s = None /\ _vector_store s' = None /\
  (_pinecone_client s' = None /\ log s' = log s ++ [EvPinecone]
   \/
   is_Some (_pinecone_client s') /\ _embeddings s' = None /\
   (exists before, log s' = log s ++ before ++ [EvOpenAIEmbeddings])
   \/
   is_Some (_pinecone_client s') /\ is_Some (_embeddings s') /\
   (exists before name, log s' = log s ++ before ++ [EvPineconeVectorStore name])).
Proof.
  intros Hr.
  assert (Hnone : _vector_store s = None).
  { destruct (_vector_store s) as [vs|] eqn:Hvs; [|done].
    unfold get_vector_store, bind, gets in Hr. rewrite Hvs in Hr. discriminate. }
  destruct (get_vector_store_build _ _ _ Hnone Hr) as (built & Hlog & Hc & Hcase).
  split; [done|]. split; [done|]. rewrite Hlog.
  destruct Hcase as [(_ & Hpc & _ & ->)|[(Hpc & _ & Hemb & ->)|(Hpc & Hemb & name & ->)]].
  - left. done.
  - right. left. split; [done|]. split; [done|]. by eexists.
  - right. right. split; [done|]. split; [done|].
    eexists (_ ++ _), name. by rewrite <- app_assoc.
Qed.

(** X4.  On a cold start, a call of [get_vector_store] that returns has
    built the Pinecone client, then the embeddings, then the store, each
    once, and all three are cached. *)
Theorem cold_start_builds_in_order (s s' : Sys) (vs : PineconeVectorStore) :
  _pinecone_client s = None -> _embeddings s = None -> _vector_store s = None ->
  get_vector_store s = (s', Ok vs) ->
  (exists name,
      log s' = log s ++ [EvPinecone; EvOpenAIEmbeddings; EvPineconeVectorStore name]) /\
  is_Some (_pinecone_client s') /\ is_Some (_embeddings s') /\
  _vector_store s' = Some vs.
Proof.
  intros Hpc Hemb Hvs Hr.
  destruct (get_vector_store_build _ _ _ Hvs Hr)
    as (built & Hlog & Hc & Hpc' & Hemb' & name & ->).
  rewrite Hpc, Hemb in Hlog. split; [by exists name|]. done.
Qed.

(** X5.  [delete_all_records] deletes nothing before it has the statistics:
    when [describe_index_stats] raises, the exception comes out and that
    read is the last outside call.  When the delete of the default namespace
    raises, no other namespace has been touched. *)
Theorem no_delete_without_stats (s s0 s1 : Sys) (pc : Pinecone) (index : Index) (e : exn) :
  init_pinecone s = (s0, Ok pc) ->
  call (EvIndex (index_name_of s0)) (pc_Index pc (index_name_of s0)) s0 = (s1, Ok index) ->
  (forall w,
      index_describe_index_stats index (ext s1) = (w, Raise e) ->
      exists s', delete_all_records s = (s', Raise e) /\
                 ext s' = w /\ log s' = log s1 ++ [EvDescribeIndexStats]) /\
  (forall w stats w',
      index_describe_index_stats index (ext s1) = (w, Ok stats) ->
      index_delete_all index "" w = (w', Raise e) ->
      exists s', delete_all_records s = (s', Raise e) /\
                 ext s' = w' /\
                 log s' = log s1 ++ [EvDescribeIndexStats; EvDelete ""]).
Proof.
  intros Hpc Hidx.
  split; unfold delete_all_records; unfold bind at 1; rewrite Hpc;
    unfold bind at 1, os_getenv_default, bind at 1, os_getenv, gets, ret;
    fold (index_name_of s0); unfold bind at 1; rewrite Hidx;
    unfold bind at 1; unfold call at 1.
  - intros w Hst. rewrite Hst. eexists. split; [reflexivity|]. done.
  - intros w stats w' Hst Hdel. rewrite Hst.
    unfold bind at 1. unfold call at 1. cbn [ext]. rewrite Hdel.
    eexists. split; [reflexivity|]. cbn [ext log]. by rewrite <- app_assoc.
Qed.

End facts.
End gateway_facts.

(** ** Further facts about app/rag_chain.py *)
Module history_facts.
Import vector_store rag_chain.
Section facts.
Context {X : External}.

Lemma turns_of_insert (st st' : State) sid h s :
  sessions st' = <[sid := h]> (sessions st) ->
  turns st' s = if decide (sid = s) then h else turns st s.
Proof.
  intros Hm. unfold turns. rewrite Hm, lookup_insert. by case_decide.
Qed.

Lemma exchanges_snoc qs answers q a :
  length qs = length answers ->
  exchanges qs answers ++ exchange q a = exchanges (qs ++ [q]) (answers ++ [a]).
Proof.
  revert answers. induction qs as [|q0 qs IH]; intros [|a0 answers] Hlen;
    simpl in *; try done.
  rewrite <- IH by lia. done.
Qed.

Lemma whole_exchanges_nil : whole_exchanges 10 [].
Proof. exists [], []. simpl. repeat split; lia. Qed.

Lemma whole_exchanges_step h q a :
  whole_exchanges 10 h -> whole_exchanges 10 (last_n 20 (h ++ exchange q a)).
Proof.
  intros (qs & answers & Hlen & Hn & ->). rewrite exchanges_snoc by done.
  destruct (decide (length qs < 10)) as [Hlt|Hge].
  - exists (qs ++ [q]), (answers ++ [a]). rewrite !length_app. simpl.
    split; [lia|]. split; [lia|]. apply rag_chain_facts.last_n_all.
    rewrite rag_chain_facts.exchanges_length; rewrite !length_app; simpl; lia.
  - destruct qs as [|q0 qs]; [simpl in *; lia|].
    destruct answers as [|a0 answers]; [done|]. simpl in Hlen, Hn, Hge.
    exists (qs ++ [q]), (answers ++ [a]). rewrite !length_app. simpl.
    split; [lia|]. split; [lia|].
    change (last_n 20 (exchange q0 a0 ++ exchanges (qs ++ [q]) (answers ++ [a]))
            = exchanges (qs ++ [q]) (answers ++ [a])).
    assert (Hex : length (exchanges (qs ++ [q]) (answers ++ [a])) = 20).
    { rewrite rag_chain_facts.exchanges_length; rewrite !length_app; simpl; lia. }
    rewrite rag_chain_facts.last_n_app_ge by lia.
    apply rag_chain_facts.last_n_all. lia.
Qed.

(** What every request keeps: live references, and whole exchanges. *)
Lemma run_op_keeps_whole sid o (st : State) :
  wf st -> (forall s, whole_exchanges 10 (turns st s)) ->
  wf (run_op sid o st).1 /\
  forall s, whole_exchanges 10 (turns (run_op sid o st).1 s).
Proof.
  intros Hwf Hall. destruct o as [question| |]; unfold run_op.
  - destruct (query question sid st) as [st' r] eqn:Hq.
    destruct (rag_chain_facts.query_cases _ _ _ _ _ Hwf Hq) as [Hwf' Hout].
    split; [done|]. intros s. simpl.
    inversion Hout as [e _ Hm|s1 llm rt e _ _ Hm|s1 llm rt s2 docs e _ _ _ Hm
                      |s1 llm rt s2 docs a _ _ _ Hm]; subst.
    + unfold turns. rewrite Hm. apply Hall.
    + rewrite (turns_of_insert _ _ _ _ s Hm). case_decide; subst; apply Hall.
    + rewrite (turns_of_insert _ _ _ _ s Hm). case_decide; subst; apply Hall.
    + rewrite (turns_of_insert _ _ _ _ s Hm). case_decide; subst; [|apply Hall].
      apply whole_exchanges_step, Hall.
  - destruct ((h <- get_history sid ;; read h) st) as [st' r] eqn:Hq.
    destruct (rag_chain_facts.get_history_sim _ _ _ _ Hwf Hq) as [Hwf' Hv].
    split; [done|]. intros s. simpl.
    unfold v_get_history, view in Hv. injection Hv as _ Hm _.
    symmetry in Hm. fold (turns st sid) in Hm.
    rewrite (turns_of_insert _ _ _ _ s Hm). case_decide; subst; apply Hall.
  - destruct (clear_memory sid st) as [st' r] eqn:Hq.
    destruct (rag_chain_facts.clear_memory_sim _ _ _ _ Hwf Hq) as [Hwf' Hv].
    split; [done|]. intros s. simpl.
    unfold v_clear_memory, view in Hv.
    destruct (sessions st !! sid) as [h|] eqn:Hs; injection Hv as _ Hm _.
    + unfold turns. rewrite <- Hm, lookup_delete. case_decide.
      * apply whole_exchanges_nil.
      * apply Hall.
    + unfold turns. rewrite <- Hm. apply Hall.
Qed.

Lemma run_requests_keep_whole requests (st : State) :
  wf st -> (forall s, whole_exchanges 10 (turns st s)) ->
  wf (run_requests requests st).1 /\
  forall s, whole_exchanges 10 (turns (run_requests requests st).1 s).
Proof.
  revert st. induction requests as [|[sid o] rest IH]; intros st Hwf Hall; [done|].
  simpl. destruct (run_op_keeps_whole sid o st Hwf Hall) as [Hwf1 Hall1].
  destruct (run_op sid o st) as [st1 out]. simpl in Hwf1, Hall1.
  destruct (IH st1 Hwf1 Hall1) as [Hwf2 Hall2].
  by destruct (run_requests rest st1) as [st2 outs].
Qed.

(** X6.  Whatever requests ([query], [get_history], [clear_memory], on any
    session ids, failing or not) a process has served since it started, the
    history of every session consists of whole exchanges, a human turn
    followed by its assistant turn, and of at most ten of them. *)
Theorem histories_are_whole_exchanges
    (w : World) (requests : list (string * op)) (sid : string) :
  exists questions answers,
    length questions = length answers /\ length questions <= 10 /\
    turns (run_requests requests (initial w)).1 sid = exchanges questions answers.
Proof.
  apply (run_requests_keep_whole requests (initial w)).
  - apply rag_chain_facts.wf_initial.
  - intros s. exists [], []. simpl. repeat split; lia.
Qed.

Lemma get_vector_store_log s s' (r : res PineconeVectorStore) :
  get_vector_store s = (s', r) ->
  exists built, log s' = log s ++ built /\ Forall setup_call built.
Proof.
  intros Hr. destruct (_vector_store s) as [vs|] eqn:Hvs.
  - unfold get_vector_store, bind, gets in Hr. rewrite Hvs in Hr.
    injection Hr as <- _. exists []. by rewrite app_nil_r.
  - destruct (gateway_facts.get_vector_store_build _ _ _ Hvs Hr) as (built & Hlog & Hc).
    exists built. split; [done|].
    destruct r as [vs|e].
    + destruct Hc as (_ & _ & _ & name & ->).
      destruct (_pinecone_client s), (_embeddings s); repeat constructor.
    + destruct Hc as [_ [(_ & _ & _ & ->)|[(_ & _ & _ & ->)|(_ & _ & name & ->)]]];
        destruct (_pinecone_client s), (_embeddings s); repeat constructor.
Qed.

Lemma query_setup_unfold s :
  query_setup s =
  match call EvChatOpenAI (ChatOpenAI_new "gpt-4o" (getenv "OPENAI_API_KEY" (ext s))) s with
  | (s1, Ok llm) =>
      match get_retriever 4%Z s1 with
      | (s2, Ok retriever) => (s2, Ok (llm, retriever))
      | (s2, Raise e) => (s2, Raise e)
      end
  | (s1, Raise e) => (s1, Raise e)
  end.
Proof. reflexivity. Qed.

Lemma query_setup_log s s' (r : res (ChatOpenAI * Retriever)) :
  query_setup s = (s', r) ->
  exists setup, log s' = log s ++ setup /\ Forall setup_call setup.
Proof.
  rewrite query_setup_unfold.
  destruct (call EvChatOpenAI _ s) as [s1 [llm|e]] eqn:Hllm;
    apply vector_store_facts.call_log in Hllm.
  2:{ intros Hr. injection Hr as <- _. exists [EvChatOpenAI]. by repeat constructor. }
  unfold get_retriever, bind.
  destruct (get_vector_store s1) as [s2 [vs|e]] eqn:Hvs;
    apply get_vector_store_log in Hvs as (built & Hlog & Hall).
  2:{ intros Hr. injection Hr as <- _. exists (EvChatOpenAI :: built).
      split; [by rewrite Hlog, Hllm, <- app_assoc|]. by constructor. }
  destruct (call (EvAsRetriever 4) _ s2) as [s3 r3] eqn:Hret.
  apply vector_store_facts.call_log in Hret.
  intros Hr. assert (s' = s3) as -> by (destruct r3; by injection Hr).
  exists (EvChatOpenAI :: built ++ [EvAsRetriever 4]).
  split; [by rewrite Hret, Hlog, Hllm, <- !app_assoc|].
  constructor; [done|]. apply Forall_app. split; [done|]. by repeat constructor.
Qed.

(** X7.  A query that returns has set up its clients, then retrieved once,
    then called the model once.  The model got the system prompt, then the
    turns the session held before this query, oldest first, then the
    question template, and as context the contents of the documents that
    this retrieval returned, joined by blank lines; the answer of the result
    is what this model call returned, and its sources are those of the same
    documents. *)
Theorem query_prompt_and_context (question sid : string) (st st' : State) (r : Answer) :
  wf st -> query question sid st = (st', Ok r) ->
  exists s1 llm retriever s2 docs setup,
    query_setup (sys st) = (s1, Ok (llm, retriever)) /\
    log s1 = log (sys st) ++ setup /\
    Forall setup_call setup /\
    call (EvRetrieverInvoke question) (retriever_invoke retriever question) s1
      = (s2, Ok docs) /\
    call (EvChainInvoke
            (("system", system_prompt) :: turns st sid ++ [("human", "{question}")])
            (join (newline +:+ newline) (map page_content docs)) question)
         (chain_invoke llm
            (("system", system_prompt) :: turns st sid ++ [("human", "{question}")])
            (join (newline +:+ newline) (map page_content docs)) question)
         s2 = (sys st', Ok (answer r)) /\
    sources r = map source_of docs /\
    log (sys st') =
      log (sys st) ++ setup ++
        [EvRetrieverInvoke question;
         EvChainInvoke
           (("system", system_prompt) :: turns st sid ++ [("human", "{question}")])
           (join (newline +:+ newline) (map page_content docs)) question].
Proof.
  intros Hwf Hq.
  destruct (rag_chain_facts.query_cases _ _ _ _ _ Hwf Hq) as [_ Hout].
  inversion Hout as [| | |s1 llm rt s2 docs a Hs Hr Hg _ Ha]; subst.
  pose proof Hs as Hs'. apply query_setup_log in Hs' as (setup & Hlog1 & Hall).
  exists s1, llm, rt, s2, docs, setup.
  split; [exact Hs|]. split; [exact Hlog1|]. split; [exact Hall|].
  split; [exact Hr|]. split; [exact Hg|]. split; [done|].
  apply vector_store_facts.call_log in Hr, Hg.
  rewrite Hg, Hr, Hlog1, <- !app_assoc. done.
Qed.

(** X23.  Neither the model client nor the retriever is kept between
    queries: once the vector store is cached, a query that returns has made
    exactly four outside calls, in this order: a new model client, a new
    retriever asking for 4 documents, the retrieval, and the model call. *)
Theorem query_makes_four_calls (question sid : string) (st st' : State) (r : Answer) :
  wf st -> is_Some (_vector_store (sys st)) ->
  query question sid st = (st', Ok r) ->
  exists docs,
    log (sys st') =
      log (sys st) ++
        [EvChatOpenAI; EvAsRetriever 4; EvRetrieverInvoke question;
         EvChainInvoke (prompt_messages (turns st sid)) (format_docs docs) question].
Proof.
  intros Hwf [vs Hvs] Hq.
  destruct (rag_chain_facts.query_cases _ _ _ _ _ Hwf Hq) as [_ Hout].
  inversion Hout as [| | |s1 llm rt s2 docs a Hs Hr Hg _ Ha]; subst.
  exists docs. apply vector_store_facts.call_log in Hr, Hg.
  rewrite Hg, Hr. rewrite query_setup_unfold in Hs.
  destruct (call EvChatOpenAI _ (sys st)) as [s0 [llm0|e]] eqn:Hllm; [|done].
  assert (Hvs0 : _vector_store s0 = Some vs).
  { unfold call in Hllm. destruct (ChatOpenAI_new _ _ _) as [w0 r0].
    injection Hllm as <- _. done. }
  apply vector_store_facts.call_log in Hllm.
  unfold get_retriever, bind, get_vector_store, bind, gets in Hs.
  rewrite Hvs0 in Hs. unfold ret in Hs.
  destruct (call (EvAsRetriever 4) _ s0) as [s3 [rt0|e]] eqn:Hrt; [|done].
  apply vector_store_facts.call_log in Hrt. injection Hs as <- _ _.
  rewrite Hrt, Hllm, <- !app_assoc. done.
Qed.

(** X8.  When [retriever.invoke] raises, [query] raises the same exception
    and the model is not called: the failed retrieval is the last outside
    call, and the outside world is as that call left it. *)
Theorem failed_retrieval_skips_model
    (question sid : string) (st : State) s1 llm retriever w (e : exn) :
  wf st ->
  query_setup (sys st) = (s1, Ok (llm, retriever)) ->
  retriever_invoke retriever question (ext s1) = (w, Raise e) ->
  exists st',
    query question sid st = (st', Raise e) /\
    ext (sys st') = w /\
    log (sys st') = log s1 ++ [EvRetrieverInvoke question].
Proof.
  intros Hwf Hsetup Hret.
  assert (Hcall : call (EvRetrieverInvoke question)
                    (retriever_invoke retriever question) s1
                  = ({| ext := w; _pinecone_client := _pinecone_client s1;
                        _vector_store := _vector_store s1;
                        _embeddings := _embeddings s1;
                        log := log s1 ++ [EvRetrieverInvoke question] |}, Raise e)).
  { unfold call. by rewrite Hret. }
  destruct (query question sid st) as [st' r] eqn:Hq. exists st'.
  destruct (rag_chain_facts.query_cases _ _ _ _ _ Hwf Hq) as [_ Hout].
  inversion Hout as [e0 Hs _|s1' llm' rt' e0 Hs Hr _
                    |s1' llm' rt' s2 docs e0 Hs Hr _ _
                    |s1' llm' rt' s2 docs a Hs Hr _ _]; subst;
    rewrite Hsetup in Hs; try discriminate; injection Hs as <- <- <-;
    rewrite Hcall in Hr; try discriminate.
  injection Hr as Hsys <-. rewrite <- Hsys. done.
Qed.

(** X9.  The list [get_history] returns is the stored one, not a copy: a
    second call returns the same list and changes nothing, and an element
    appended through the returned reference is in the session's history,
    while every other session keeps its turns. *)
Theorem get_history_returns_the_stored_list (sid : string) (st st1 : State) (l : loc) :
  wf st -> get_history sid st = (st1, Ok l) ->
  turns st1 sid = turns st sid /\
  get_history sid st1 = (st1, Ok l) /\
  forall x, exists st2,
    list_append l x st1 = (st2, Ok tt) /\
    turns st2 sid = turns st sid ++ [x] /\
    get_history sid st2 = (st2, Ok l) /\
    forall s, s <> sid -> turns st2 s = turns st s.
Proof.
  intros Hwf Hg.
  destruct (rag_chain_facts.get_history_run st sid Hwf)
    as (st1' & l' & Hrun & Hwf1 & _ & Hl1 & Hv1).
  rewrite Hrun in Hg. injection Hg as -> ->.
  assert (Ht1 : forall s, turns st1 s = turns st s).
  { intros s. rewrite (turns_of_insert _ _ _ _ s Hv1). by case_decide; subst. }
  assert (Hagain : forall st', _session_histories st' !! sid = Some l ->
                               get_history sid st' = (st', Ok l)).
  { intros st' Hl. unfold get_history, dict_get, bind, gets, ret.
    rewrite Hl. simpl. by rewrite Hl. }
  split; [done|]. split; [by apply Hagain|]. intros x.
  destruct (rag_chain_facts.list_append_run st1 sid l x Hwf1 Hl1)
    as (st2 & Hrun2 & _ & _ & Hd2 & Hv2).
  exists st2. split; [done|]. split; [|split].
  - rewrite (turns_of_insert _ _ _ _ sid Hv2). case_decide; [|done]. by rewrite Ht1.
  - apply Hagain. by rewrite Hd2.
  - intros s Hne. rewrite (turns_of_insert _ _ _ _ s Hv2).
    case_decide; [congruence|]. apply Ht1.
Qed.

(** X10.  A content preview never has more than 203 characters: a content
    of at most 200 characters is the preview as it is, a longer one gives a
    preview of exactly 203 (so for 201 or 202 characters the preview is
    longer than the content).  Characters are counted, not bytes.  A
    document without a ["source"] or ["type"] key is cited as ["Unknown"]. *)
Theorem preview_is_bounded (doc : Document) :
  py_len (content_preview (source_of doc)) <= 203 /\
  (py_len (page_content doc) <= 200 ->
   content_preview (source_of doc) = page_content doc) /\
  (200 < py_len (page_content doc) ->
   py_len (content_preview (source_of doc)) = 203) /\
  (metadata doc !! "source" = None -> source (source_of doc) = "Unknown") /\
  (metadata doc !! "type" = None -> type (source_of doc) = "Unknown").
Proof.
  unfold source_of. simpl.
  destruct (200 <? py_len (page_content doc)) eqn:Hlt.
  - apply Nat.ltb_lt in Hlt.
    assert (Hlen : py_len (py_prefix 200 (page_content doc) +:+ "...") = 203).
    { rewrite rag_chain_facts.py_len_app, rag_chain_facts.py_prefix_len by lia. done. }
    rewrite Hlen. repeat split; try lia; by intros ->.
  - apply Nat.ltb_ge in Hlt. repeat split; try lia; try done; by intros ->.
Qed.

End facts.
End history_facts.

(** ** Facts about the loaders of app/document_loader.py and the file-name
    check of app/main.py *)
Module loader_facts.
Import document_loader main.

Lemma has_char_app c a b : has_char c (a +:+ b) = has_char c a || has_char c b.
Proof.
  induction a as [|d a IH]; simpl; [done|]. case_decide; [done|]. by rewrite IH.
Qed.

Lemma rsplit1_None c s : rsplit1 c s = None <-> has_char c s = false.
Proof.
  induction s as [|d s IH]; simpl; [done|].
  destruct (rsplit1 c s) as [[before after]|].
  - split; [done|]. case_decide; [done|]. intros Hs. by apply IH in Hs.
  - case_decide; [done|]. split; [intros _|done]. by apply IH.
Qed.

Lemma rsplit1_Some c s before after :
  rsplit1 c s = Some (before, after) ->
  s = before +:+ String c after /\ has_char c after = false.
Proof.
  revert before. induction s as [|d s IH]; intros before; simpl; [done|].
  destruct (rsplit1 c s) as [[b a]|] eqn:Hr.
  - intros Heq. injection Heq as <- <-. destruct (IH b eq_refl) as [-> Ha]. done.
  - case_decide; [|done]. intros Heq. injection Heq as <- <-. subst.
    split; [done|]. by apply rsplit1_None.
Qed.

Lemma rsplit1_last c before after :
  has_char c after = false ->
  rsplit1 c (before +:+ String c after) = Some (before, after).
Proof.
  intros Ha. apply rsplit1_None in Ha.
  induction before as [|d before IH]; simpl.
  - rewrite Ha. by case_decide.
  - by rewrite IH.
Qed.

Lemma lower_app a b : lower (a +:+ b) = lower a +:+ lower b.
Proof. induction a as [|c a IH]; simpl; [done|]. by rewrite IH. Qed.

Lemma only_space_bar seen s : has_char "|" s = true -> only_space seen s = false.
Proof.
  revert seen. induction s as [|c s IH]; intros seen Hbar; simpl in Hbar; [done|].
  case_decide as Hc.
  - subst c. by destruct seen.
  - simpl. rewrite !IH by done. destruct seen; simpl;
      repeat match goal with |- context [if ?b then _ else _] => destruct b end;
      by rewrite ?andb_false_r.
Qed.

Lemma ends_with_slash_split a :
  ends_with_slash a = true -> exists a', a = a' +:+ "/".
Proof.
  induction a as [|c a IH]; simpl; [done|]. destruct a as [|d a].
  - case_decide; [|done]. subst. intros _. by exists "".
  - intros Ha. destruct (IH Ha) as [a' ->]. by exists (String c a').
Qed.

(** A name without a slash, put under a directory, is the last component. *)
Lemma path_join_name dir name :
  has_char "/" name = false ->
  path_join dir name = name /\ rsplit1 "/" (path_join dir name) = None \/
  exists d, path_join dir name = d +:+ String "/" name /\
            rsplit1 "/" (path_join dir name) = Some (d, name).
Proof.
  intros Hname. unfold path_join.
  assert (Hgo : (if decide (dir = "") then name
                 else if ends_with_slash dir then dir +:+ name
                      else dir +:+ "/" +:+ name) = name /\ dir = ""
                \/ exists d, (if decide (dir = "") then name
                              else if ends_with_slash dir then dir +:+ name
                                   else dir +:+ "/" +:+ name) = d +:+ String "/" name).
  { case_decide; [by left|]. right.
    destruct (ends_with_slash dir) eqn:Hd.
    - apply ends_with_slash_split in Hd as [d ->]. exists d.
      clear. induction d as [|c d IH]; [done|].
      change (String c ((d +:+ "/") +:+ name) = String c (d +:+ String "/" name)).
      by f_equal.
    - exists dir. clear. induction dir as [|c d IH]; [done|].
      change (String c (d +:+ "/" +:+ name) = String c (d +:+ String "/" name)).
      by f_equal. }
  assert (Hsame : path_join dir name
                  = (if decide (dir = "") then name
                     else if ends_with_slash dir then dir +:+ name
                          else dir +:+ "/" +:+ name)).
  { unfold path_join. destruct name as [|c name]; [done|]. simpl in Hname.
    destruct (decide (c = "/"%char)) as [->|Hne]; [done|].
    destruct c as [[] [] [] [] [] [] [] []]; done. }
  fold (path_join dir name). rewrite Hsame.
  destruct Hgo as [[-> _]|[d ->]].
  - left. split; [done|]. by apply rsplit1_None.
  - right. exists d. split; [done|]. by apply rsplit1_last.
Qed.

Section facts.
Context {H : Host}.

Lemma loaders_lookup extension :
  loaders !! extension =
  if decide (extension = ".pdf") then Some load_pdf
  else if decide (extension = ".docx") then Some load_docx
  else if decide (extension = ".xlsx") then Some load_excel
  else if decide (extension = ".xls") then Some load_excel
  else None.
Proof.
  unfold loaders. repeat case_decide; subst; try reflexivity.
  rewrite !lookup_insert_ne by done. by rewrite lookup_singleton_ne.
Qed.

(** X11.  [load_document] decides by the extension of the last path
    component, lower-cased.  For any other extension than [.pdf], [.docx],
    [.xlsx] and [.xls] (none at all included) it raises
    ["Unsupported file type: <extension>"] whatever is on the disk: the file
    is not read. *)
Theorem load_document_unsupported (file_path : string) (m : Machine) :
  let extension := lower (splitext file_path).2 in
  extension <> ".pdf" -> extension <> ".docx" ->
  extension <> ".xlsx" -> extension <> ".xls" ->
  load_document file_path m
  = Raise (Exception ("Unsupported file type: " +:+ extension)).
Proof.
  intros extension Hpdf Hdocx Hxlsx Hxls. unfold load_document.
  fold extension. rewrite loaders_lookup. by repeat case_decide.
Qed.

(** X12.  When [load_document] returns, it returns exactly one document;
    its ["source"] is the base name of the path (no directory) and its
    ["type"] follows from the extension, upper or lower case: ["pdf"],
    ["docx"], or ["excel"] for both [.xlsx] and [.xls]. *)
Theorem load_document_one_document (file_path : string) (m : Machine) docs :
  load_document file_path m = Ok docs ->
  exists text kind,
    docs = [{| page_content := text;
               metadata := {[ "source" := basename file_path; "type" := kind ]} |}] /\
    (lower (splitext file_path).2 = ".pdf" /\ kind = "pdf" \/
     lower (splitext file_path).2 = ".docx" /\ kind = "docx" \/
     (lower (splitext file_path).2 = ".xlsx" \/ lower (splitext file_path).2 = ".xls")
       /\ kind = "excel").
Proof.
  unfold load_document. rewrite loaders_lookup.
  repeat case_decide; try done; intros Hload.
  - unfold load_pdf in Hload. destruct (pdf_page_texts file_path m); [|done].
    injection Hload as <-. eexists _, "pdf". split; [reflexivity|]. auto.
  - unfold load_docx in Hload. destruct (docx_paragraph_texts file_path m); [|done].
    injection Hload as <-. eexists _, "docx". split; [reflexivity|]. auto.
  - unfold load_excel in Hload. destruct (workbook_sheets file_path m); [|done].
    injection Hload as <-. eexists _, "excel". split; [reflexivity|]. auto.
  - unfold load_excel in Hload. destruct (workbook_sheets file_path m); [|done].
    injection Hload as <-. eexists _, "excel". split; [reflexivity|]. auto.
Qed.

End facts.

Lemma join_two sep a b rest :
  join sep (a :: b :: rest) = a +:+ sep +:+ join sep (b :: rest).
Proof. reflexivity. Qed.

Lemma row_kept_line (row : list (option string)) :
  strip_truthy (row_text row) = row_kept row.
Proof.
  destruct row as [|a [|b rest]]; [done|done|].
  unfold row_text, strip_truthy. simpl map. rewrite join_two.
  rewrite only_space_bar; [done|]. rewrite !has_char_app.
  replace (has_char "|" " | ") with true by reflexivity.
  by rewrite orb_true_r.
Qed.

Lemma kept_lines (rows : list (list (option string))) :
  List.filter strip_truthy (map row_text rows) = map row_text (List.filter row_kept rows).
Proof.
  induction rows as [|row rows IH]; [done|]. simpl.
  rewrite row_kept_line, IH. by destruct (row_kept row).
Qed.

Section sheets.
Context {H : Host}.

(** X13.  When the workbook opens, [load_excel] returns one document of
    type ["excel"] whose content has, sheet by sheet and joined by line
    breaks, the line ["Sheet: <name>"] followed by one line per kept row, in
    row order: the cells of the row joined by [" | "], an empty cell as the
    empty text.  A row with two or more cells is always kept, even when
    every cell is empty, because the separators stay; a row with no cell is
    dropped, and a row with one cell is kept exactly when the cell holds a
    character that is not white space.  When the workbook does not open,
    [load_excel] raises what opening it raised. *)
Theorem load_excel_lines (file_path : string) (m : Machine) :
  (forall sheets,
      workbook_sheets file_path m = Ok sheets ->
      load_excel file_path m =
        Ok [{| page_content :=
                 join newline
                   (concat
                      (map (fun sheet : string * list (list (option string)) =>
                              ("Sheet: " +:+ sheet.1)
                                :: map row_text (List.filter row_kept sheet.2))
                           sheets));
               metadata := {[ "source" := basename file_path; "type" := "excel" ]} |}]) /\
  (forall e, workbook_sheets file_path m = Raise e -> load_excel file_path m = Raise e).
Proof.
  unfold load_excel. split.
  - intros sheets ->. do 3 f_equal. cbv zeta. do 2 f_equal.
    apply map_ext. intros [name rows].
    unfold sheet_parts. simpl. by rewrite kept_lines.
  - by intros e ->.
Qed.

End sheets.

Section names.
Context {H : Host}.

(** X14.  [allowed_file] accepts a name exactly when it has a dot and what
    follows its last dot is, in any mix of upper and lower case, one of
    [pdf], [docx], [xlsx], [xls]. *)
Theorem allowed_file_accepts (filename : string) :
  allowed_file filename = true <->
  exists stem extension,
    filename = stem +:+ "." +:+ extension /\
    has_char "." extension = false /\
    (lower extension = "pdf" \/ lower extension = "docx" \/
     lower extension = "xlsx" \/ lower extension = "xls").
Proof.
  unfold allowed_file. split.
  - intros [_ Hext]%andb_true_iff.
    destruct (rsplit1 "." filename) as [[stem ext]|] eqn:Hr; [|done].
    apply rsplit1_Some in Hr as [-> Hno]. exists stem, ext.
    split; [done|]. split; [done|].
    apply bool_decide_eq_true in Hext. unfold ALLOWED_EXTENSIONS in Hext.
    rewrite !elem_of_union, !elem_of_singleton in Hext. tauto.
  - intros (stem & ext & -> & Hno & Hext).
    change (stem +:+ "." +:+ ext) with (stem +:+ String "." ext).
    rewrite has_char_app, rsplit1_last by done. simpl has_char.
    rewrite orb_true_r. simpl. apply bool_decide_eq_true.
    unfold ALLOWED_EXTENSIONS. rewrite !elem_of_union, !elem_of_singleton. tauto.
Qed.

(** X15.  The upload check and the loader agree, except on names that are
    dots up to their last dot: for a name without a slash that
    [allowed_file] accepts, stored under any directory, [load_document] runs
    the loader of its extension when [os.path.splitext] finds an extension
    in the name, and raises ["Unsupported file type: "] when it finds none
    (as for [".pdf"]). *)
Theorem allowed_file_then_load_document (dir name : string) (m : Machine) :
  has_char "/" name = false -> allowed_file name = true ->
  ((splitext name).2 <> "" ->
   exists loader,
     loaders !! lower (splitext (path_join dir name)).2 = Some loader /\
     load_document (path_join dir name) m = loader (path_join dir name) m) /\
  ((splitext name).2 = "" ->
   load_document (path_join dir name) m
   = Raise (Exception "Unsupported file type: ")).
Proof.
  intros Hslash Hallowed.
  apply allowed_file_accepts in Hallowed as (stem & ext & -> & Hno & Hext).
  change (stem +:+ "." +:+ ext) with (stem +:+ String "." ext) in *.
  assert (Hdot : rsplit1 "." (stem +:+ String "." ext) = Some (stem, ext)).
  { by apply rsplit1_last. }
  assert (Hname : rsplit1 "/" (stem +:+ String "." ext) = None).
  { by apply rsplit1_None. }
  assert (Hext_of : (splitext (stem +:+ String "." ext)).2
                    = if all_dots stem then "" else "." +:+ ext).
  { unfold splitext. rewrite Hname. cbv beta iota zeta. rewrite Hdot.
    by destruct (all_dots stem). }
  assert (Hjoined : (splitext (path_join dir (stem +:+ String "." ext))).2
                    = if all_dots stem then "" else "." +:+ ext).
  { unfold splitext.
    destruct (path_join_name dir _ Hslash) as [[Hp Hr]|(d & Hp & Hr)];
      rewrite Hr; cbv beta iota zeta; rewrite ?Hp, Hdot; by destruct (all_dots stem). }
  rewrite Hext_of. unfold load_document. rewrite Hjoined.
  destruct (all_dots stem).
  - split; [done|]. intros _. by rewrite loaders_lookup.
  - split; [|done]. intros _.
    change (lower ("." +:+ ext)) with ("." +:+ lower ext).
    rewrite loaders_lookup.
    destruct Hext as [-> | [-> | [-> | ->]]]; simpl; eauto.
Qed.

End names.
End loader_facts.

(** ** Facts about the views of app/main.py *)
Module web_facts.
Import vector_store rag_chain document_loader main.
Section facts.
Context {X : External} {L : TextSplitters} {H : Host}.

(** X17.  [delete_all_pinecone_records] empties the list of tracked
    documents exactly when [delete_all_records] returned; when that raised
    (whatever it had deleted by then) the answer is 500 with the message and
    the list is as before.  Sessions and machine are not touched. *)
Theorem reset_clears_list_on_success (a : App) :
  let outcome := delete_all_records (sys (process a)) in
  let a' := (delete_all_pinecone_records a).1 in
  let response := (delete_all_pinecone_records a).2 in
  sys (process a') = outcome.1 /\
  sessions (process a') = sessions (process a) /\
  machine a' = machine a /\ host_log a' = host_log a /\
  match outcome.2 with
  | Ok result =>
      uploaded_documents a' = [] /\ status response = 200 /\
      body response =
        JDict [("success", JBool true);
               ("message", JStr ("Deleted " +:+ pretty (previous_vector_count result)
                                   +:+ " vectors from Pinecone"))]
  | Raise e =>
      uploaded_documents a' = uploaded_documents a /\
      response = error (str_exn e) 500
  end.
Proof.
  unfold delete_all_pinecone_records, try_500, bind, in_gateway, in_process, lift,
    modify, ret.
  by destruct (delete_all_records (sys (process a))) as [s' [result|e]].
Qed.

(** X18.  [delete_document] takes every entry with the given id out of the
    tracked list and keeps the others in their order; with an unknown id the
    list is unchanged; in either case the answer is 200, a second call
    changes nothing more, and neither the index nor the sessions nor the
    machine are touched. *)
Theorem delete_document_filters (id : string) (a : App) :
  let a' := (delete_document id a).1 in
  (forall d, d ∈ uploaded_documents a' <-> d ∈ uploaded_documents a /\ doc_id d <> id) /\
  sublist (uploaded_documents a') (uploaded_documents a) /\
  ((forall d, d ∈ uploaded_documents a -> doc_id d <> id) -> a' = a) /\
  (delete_document id a').1 = a' /\
  status (delete_document id a).2 = 200 /\
  process a' = process a /\ machine a' = machine a /\ host_log a' = host_log a.
Proof.
  assert (Hsame : forall docs : list Tracked,
             (forall d, d ∈ docs -> doc_id d <> id) ->
             filter (fun d => doc_id d <> id) docs = docs).
  { intros docs Hall. induction docs as [|d docs IH]; [done|].
    rewrite filter_cons_True by (apply Hall; left).
    f_equal. apply IH. intros d' Hd'. apply Hall. by right. }
  destruct a as [st m docs hl]. unfold delete_document, with_uploaded. simpl.
  split; [|split; [|split; [|split]]].
  - intros d. rewrite list_elem_of_filter. tauto.
  - apply sublist_filter.
  - intros Hall. by rewrite Hsame.
  - f_equal. rewrite list_filter_filter. apply list_filter_iff. tauto.
  - done.
Qed.

(** X19.  [upload_file] answers 400 and does nothing at all (no file is
    saved, nothing is indexed or tracked) when the request has no ["file"]
    part, when the file name is empty, or when [allowed_file] rejects it. *)
Theorem upload_rejected_untouched (files : gmap string (string * Blob)) (a : App) :
  files !! "file" = None \/
  (exists name content, files !! "file" = Some (name, content) /\
                        (name = "" \/ allowed_file name = false)) ->
  (upload_file files a).1 = a /\ status (upload_file files a).2 = 400.
Proof.
  unfold upload_file. intros [->|(name & content & -> & [->|Hno])]; [done|done|].
  case_decide; [done|]. by rewrite Hno.
Qed.

(** X20.  An upload that passed the three checks saves the file under the
    upload directory with its secured name, loads the saved file, cuts the
    loaded documents with the default configuration, indexes the chunks it
    got, adds one entry to the tracked list (a new identifier, the secured
    name, the number of those chunks, the lower-cased extension of the
    secured name) and removes the saved file.  It answers 200 when all of
    these returned.  The first step that raises ends it with a 500 carrying
    the message, and no later step runs: nothing is indexed unless the file
    was saved, loaded and cut, and no entry is added and the file is not
    removed unless the chunks were indexed; only a failed removal leaves the
    entry behind a 500.  Sessions are never touched. *)
Theorem upload_outcome (files : gmap string (string * Blob)) (a : App) name content :
  files !! "file" = Some (name, content) -> name <> "" -> allowed_file name = true ->
  upload_ends content (secure_filename name) a
    (upload_file files a).1 (upload_file files a).2 /\
  sessions (process (upload_file files a).1) = sessions (process a).
Proof.
  intros Hfile Hname Hallowed.
  destruct (upload_file files a) as [a1 resp] eqn:Hup. cbn [fst snd].
  assert (Hends : upload_ends content (secure_filename name) a a1 resp).
  { unfold upload_file in Hup. rewrite Hfile in Hup.
    rewrite decide_False in Hup by done. rewrite Hallowed in Hup.
    simpl negb in Hup. cbv iota zeta in Hup.
    set (filename := secure_filename name) in *.
    set (file_path := path_join UPLOAD_FOLDER filename) in *.
    unfold try_500 in Hup.
    unfold bind at 1, on_machine at 1 in Hup.
    destruct (file_save content file_path (machine a)) as [m1 [[]|e]] eqn:Hsave.
    2:{ injection Hup as <- <-. by eapply SaveFailed. }
    unfold bind at 1, reading at 1 in Hup. cbn [machine] in Hup.
    destruct (load_document file_path m1) as [documents|e] eqn:Hload.
    2:{ injection Hup as <- <-. by eapply LoadFailed. }
    unfold bind at 1, pure at 1 in Hup.
    destruct (chunk_documents_default documents) as [chunks|e] eqn:Hchunk.
    2:{ injection Hup as <- <-. by eapply ChunkFailed. }
    unfold bind at 1, in_gateway, in_process, lift in Hup. cbn [process] in Hup.
    destruct (add_documents chunks (sys (process a))) as [s1 [ids|e]] eqn:Hadd.
    2:{ injection Hup as <- <-. unfold with_process.
        cbn [process machine uploaded_documents host_log]. by eapply IndexFailed. }
    unfold bind at 1, on_machine at 1 in Hup. cbn [machine with_process] in Hup.
    destruct (uuid4 m1) as [m2 uuid] eqn:Huuid. unfold bind at 1, modify in Hup.
    unfold bind at 1, on_machine at 1 in Hup. cbn [machine with_uploaded] in Hup.
    destruct (os_remove file_path m2) as [m3 [[]|e]] eqn:Hremove;
      unfold ret in Hup; injection Hup as <- <-;
      unfold with_uploaded, with_process;
      cbn [process machine uploaded_documents host_log];
      rewrite <- !app_assoc.
    - by eapply Uploaded.
    - by eapply RemoveFailed. }
  split; [exact Hends|]. by destruct Hends.
Qed.

End facts.
End web_facts.

(** ** Facts about delete_pinecone.py *)
Module script_facts.
Import vector_store delete_pinecone.
Section facts.
Context {X : External}.

Lemma delete_namespaces_caches index keys s s' (r : res unit) :
  delete_namespaces index keys s = (s', r) ->
  _pinecone_client s' = _pinecone_client s /\
  _vector_store s' = _vector_store s /\ _embeddings s' = _embeddings s.
Proof.
  revert s. induction keys as [|k keys IH]; intros s Hloop; simpl in Hloop.
  - unfold ret in Hloop. by injection Hloop as <- _.
  - unfold bind at 1 in Hloop. destruct (truthy k).
    + unfold call in Hloop.
      destruct (index_delete_all index k (ext s)) as [w [[]|e]].
      * by apply IH in Hloop.
      * by injection Hloop as <- _.
    + unfold ret in Hloop. by apply IH in Hloop.
Qed.

(** X22.  A run of the script that ends normally has built a Pinecone
    client of its own (whatever the gateway has cached, and without caching
    anything), opened with it the index named by [PINECONE_INDEX_NAME], or
    ["shopify-products"] when that is unset (the gateway's default is
    ["rag-documents"]), read the statistics of that index, deleted its
    default namespace and then every non-empty namespace key of the
    statistics it read, and printed its four lines, the count being the
    total of those statistics, read before the deletes. *)
Theorem script_run (s s' : Sys) (out out' : list string) :
  script (s, out) = ((s', out'), Ok tt) ->
  exists w pc w1 index w2 stats w3,
    let index_name := from_option id "shopify-products" (getenv "PINECONE_INDEX_NAME" w) in
    Pinecone_new (getenv "PINECONE_API_KEY" (ext s)) (ext s) = (w, Ok pc) /\
    pc_Index pc index_name w = (w1, Ok index) /\
    index_describe_index_stats index w1 = (w2, Ok stats) /\
    index_delete_all index "" w2 = (w3, Ok tt) /\
    log s' = log s ++ [EvPinecone; EvIndex index_name; EvDescribeIndexStats; EvDelete ""]
               ++ map EvDelete (List.filter truthy (stats_namespace_keys stats)) /\
    out' = out ++ ["Connecting to Pinecone index: " +:+ index_name;
                   "Current vector count: "
                     +:+ pretty (from_option id 0%Z (total_vector_count stats));
                   "Deleting all records...";
                   "✓ All records deleted successfully!"] /\
    _pinecone_client s' = _pinecone_client s /\
    _vector_store s' = _vector_store s /\ _embeddings s' = _embeddings s.
Proof.
  unfold script. intros Hrun.
  unfold bind at 1, outside at 1, os_getenv, gets in Hrun.
  unfold bind at 1, outside at 1, call at 1 in Hrun.
  destruct (Pinecone_new _ (ext s)) as [w [pc|e]] eqn:Hpc; [|done].
  unfold bind at 1, outside at 1, os_getenv_default, bind at 1, os_getenv, gets, ret
    in Hrun. cbn [ext] in Hrun.
  set (index_name := from_option id "shopify-products" _) in Hrun.
  unfold bind at 1, print at 1, modify in Hrun.
  unfold bind at 1, outside at 1, call at 1 in Hrun. cbn [ext] in Hrun.
  destruct (pc_Index pc index_name w) as [w1 [index|e]] eqn:Hindex; [|done].
  unfold bind at 1, outside at 1, call at 1 in Hrun. cbn [ext] in Hrun.
  destruct (index_describe_index_stats index w1) as [w2 [stats|e]] eqn:Hstats; [|done].
  unfold bind at 1, print at 1, modify in Hrun.
  unfold bind at 1, print at 1, modify in Hrun.
  unfold bind at 1, outside at 1, call at 1 in Hrun. cbn [ext] in Hrun.
  destruct (index_delete_all index "" w2) as [w3 [[]|e]] eqn:Hdelete; [|done].
  unfold bind at 1, outside at 1 in Hrun.
  match type of Hrun with
  | context [delete_namespaces index ?keys ?s3] =>
      destruct (delete_namespaces index keys s3) as [s4 [[]|e]] eqn:Hloop; [|done]
  end.
  unfold print, modify in Hrun. injection Hrun as <- <-.
  pose proof (vector_store_facts.delete_namespaces_log _ _ _ _ Hloop) as Hlog.
  apply delete_namespaces_caches in Hloop as Hcaches. cbn in Hcaches.
  exists w, pc, w1, index, w2, stats, w3. cbv zeta. fold index_name.
  split; [done|]. split; [done|]. split; [done|]. split; [done|].
  split; [|split; [|done]].
  - rewrite Hlog. cbn [log]. by rewrite <- !app_assoc.
  - by rewrite <- !app_assoc.
Qed.

End facts.
End script_facts.

(** ** The further theorems at work on the in-memory stand-ins *)
Module at_work.
Import vector_store rag_chain document_loader main in_memory.

Section working.
#[local] Existing Instance services.
#[local] Existing Instance small_texts.
#[local] Existing Instance host.

(** X2: after the first [get_vector_store], the second builds nothing. *)
Lemma clients_are_built_once_witness :
  get_vector_store (get_vector_store (sys st0)).1
  = ((get_vector_store (sys st0)).1, Ok tt).
Proof.
  assert (Hr : get_vector_store (sys st0) = ((get_vector_store (sys st0)).1, Ok tt))
    by (vm_compute; reflexivity).
  exact (proj1 (proj2 (proj2 (gateway_facts.clients_are_built_once _ _)) tt Hr)).
Defined.

(** X4: the first [get_vector_store] of a process. *)
Lemma cold_start_builds_in_order_witness :
  exists name,
    log (get_vector_store (sys st0)).1
    = log (sys st0) ++ [EvPinecone; EvOpenAIEmbeddings; EvPineconeVectorStore name].
Proof.
  assert (Hr : get_vector_store (sys st0) = ((get_vector_store (sys st0)).1, Ok tt))
    by (vm_compute; reflexivity).
  exact (proj1 (gateway_facts.cold_start_builds_in_order (sys st0) _ tt
                  eq_refl eq_refl eq_refl Hr)).
Defined.

(** X7: the first query of a process, on session ["s1"]. *)
Lemma query_prompt_and_context_witness :
  log (sys (query "q1" "s1" st0).1) =
    [EvChatOpenAI; EvPinecone; EvOpenAIEmbeddings; EvPineconeVectorStore "rag-documents";
     EvAsRetriever 4; EvRetrieverInvoke "q1";
     EvChainInvoke
       [("system", system_prompt); ("human", "{question}")]
       ("Paris is the capital of France." +:+ newline +:+ newline
          +:+ "Berlin is the capital of Germany.")
       "q1"].
Proof.
  assert (Hq : query "q1" "s1" st0 = ((query "q1" "s1" st0).1, Ok (echoed "q1")))
    by (vm_compute; reflexivity).
  destruct (history_facts.query_prompt_and_context "q1" "s1" st0 _ _
              (rag_chain_facts.wf_initial _) Hq)
    as (s1 & llm & retriever & s2 & docs & setup & Hs & Hlog1 & _ & Hr & _ & _ & Hlog).
  rewrite Hlog. vm_compute in Hs. injection Hs as <- _ <-.
  vm_compute in Hlog1. rewrite <- Hlog1.
  vm_compute in Hr. injection Hr as _ <-.
  vm_compute. reflexivity.
Defined.

(** X23: the second query of a process. *)
Lemma query_makes_four_calls_witness :
  exists docs,
    log (sys (query "q2" "s1" st_s2).1) =
      log (sys st_s2) ++
        [EvChatOpenAI; EvAsRetriever 4; EvRetrieverInvoke "q2";
         EvChainInvoke (prompt_messages (turns st_s2 "s1")) (format_docs docs) "q2"].
Proof.
  assert (Hvs : is_Some (_vector_store (sys st_s2))).
  { exists tt. vm_compute. reflexivity. }
  assert (Hq : query "q2" "s1" st_s2 = ((query "q2" "s1" st_s2).1, Ok (echoed "q2")))
    by (vm_compute; reflexivity).
  exact (history_facts.query_makes_four_calls "q2" "s1" st_s2 _ _
           rag_chain_facts.wf_st_s2 Hvs Hq).
Defined.

(** X8: retrieval is down. *)
Lemma failed_retrieval_skips_model_witness :
  exists st',
    query "q1" "s1" st_retrieval_down
      = (st', Raise (Exception "RetrievalBackendError")) /\
    ext (sys st') = ext (sys st_retrieval_down) /\
    log (sys st') = log (query_setup (sys st_retrieval_down)).1
                      ++ [EvRetrieverInvoke "q1"].
Proof.
  assert (Hs : query_setup (sys st_retrieval_down)
               = ((query_setup (sys st_retrieval_down)).1, Ok (tt, 4%Z)))
    by (vm_compute; reflexivity).
  assert (Hr : retriever_invoke 4%Z "q1" (ext (query_setup (sys st_retrieval_down)).1)
               = (ext (sys st_retrieval_down),
                  Raise (Exception "RetrievalBackendError")))
    by (vm_compute; reflexivity).
  exact (history_facts.failed_retrieval_skips_model "q1" "s1" st_retrieval_down
           _ _ _ _ _ (rag_chain_facts.wf_initial _) Hs Hr).
Defined.

(** X9: the list of a new session. *)
Lemma get_history_returns_the_stored_list_witness :
  turns (get_history "s1" st0).1 "s1" = turns st0 "s1" /\
  get_history "s1" (get_history "s1" st0).1
    = ((get_history "s1" st0).1, Ok 1%positive).
Proof.
  assert (Hg : get_history "s1" st0 = ((get_history "s1" st0).1, Ok 1%positive))
    by (vm_compute; reflexivity).
  destruct (history_facts.get_history_returns_the_stored_list "s1" st0 _ _
              (rag_chain_facts.wf_initial _) Hg) as (Ht & Hagain & _).
  exact (conj Ht Hagain).
Defined.

(** X11: a text file, and a file named [.pdf]. *)
Lemma load_document_unsupported_witness :
  load_document "uploads/notes.TXT" machine0
  = Raise (Exception "Unsupported file type: .txt").
Proof.
  assert (Hext : lower (splitext "uploads/notes.TXT").2 = ".txt")
    by (vm_compute; reflexivity).
  pose proof (loader_facts.load_document_unsupported "uploads/notes.TXT" machine0) as Hl.
  cbv zeta in Hl. rewrite Hext in Hl.
  apply Hl; intros Heq; discriminate Heq.
Defined.

(** X12: a PDF on the disk. *)
Lemma load_document_one_document_witness :
  exists text kind,
    [{| page_content := "Quarterly figures.";
        metadata := {[ "source" := "Report.PDF"; "type" := "pdf" ]} |}]
    = [{| page_content := text;
          metadata := {[ "source" := basename "uploads/Report.PDF"; "type" := kind ]} |}].
Proof.
  assert (Hl : load_document "uploads/Report.PDF"
                 {| disk := [("uploads/Report.PDF", "Quarterly figures.")]; uuids := 0 |}
               = Ok [{| page_content := "Quarterly figures.";
                        metadata := {[ "source" := "Report.PDF"; "type" := "pdf" ]} |}])
    by (vm_compute; reflexivity).
  destruct (loader_facts.load_document_one_document _ _ _ Hl) as (text & kind & Hd & _).
  exists text, kind. exact Hd.
Defined.

(** X15: the name of the upload, under the upload directory. *)
Lemma allowed_file_then_load_document_witness :
  exists loader,
    loaders !! lower (splitext (path_join "uploads" "Report.PDF")).2 = Some loader /\
    load_document (path_join "uploads" "Report.PDF") machine0
    = loader (path_join "uploads" "Report.PDF") machine0.
Proof.
  assert (Hslash : has_char "/" "Report.PDF" = false) by (vm_compute; reflexivity).
  assert (Hallowed : allowed_file "Report.PDF" = true) by (vm_compute; reflexivity).
  apply (proj1 (loader_facts.allowed_file_then_load_document (H := host)
                  "uploads" "Report.PDF" machine0 Hslash Hallowed)).
  vm_compute. intros Heq. discriminate Heq.
Defined.

(** X19: a request without a file part. *)
Lemma upload_rejected_untouched_witness :
  (upload_file ∅ app0).1 = app0 /\ status (upload_file ∅ app0).2 = 400.
Proof.
  apply web_facts.upload_rejected_untouched. left. apply lookup_empty.
Defined.

(** X13: a workbook of one sheet with three rows, whose last row has one
    empty cell. *)
Lemma load_excel_lines_witness :
  load_excel "uploads/book.xlsx"
    {| disk := [("uploads/book.xlsx", "Quarterly figures.")]; uuids := 0 |}
  = Ok [{| page_content :=
             "Sheet: Sheet1" +:+ newline +:+ "Quarterly figures." +:+ newline +:+ " | ";
           metadata := {[ "source" := "book.xlsx"; "type" := "excel" ]} |}].
Proof.
  assert (Hsheets : workbook_sheets "uploads/book.xlsx"
                      {| disk := [("uploads/book.xlsx", "Quarterly figures.")];
                         uuids := 0 |}
                    = Ok [("Sheet1", [[Some "Quarterly figures."]; [None; None]; [None]])])
    by (vm_compute; reflexivity).
  rewrite (proj1 (loader_facts.load_excel_lines (H := host) _ _) _ Hsheets).
  vm_compute. reflexivity.
Defined.

(** X20: the upload of a small PDF. *)
Lemma upload_outcome_witness :
  upload_ends (H := host) "Quarterly figures." "Report.PDF" app0
    (upload_file upload_report app0).1 (upload_file upload_report app0).2 /\
  status (upload_file upload_report app0).2 = 200 /\
  uploaded_documents (upload_file upload_report app0).1
    = [{| doc_id := "uuid-0"; doc_name := "Report.PDF"; doc_chunks := 1;
          doc_type := ".pdf" |}] /\
  host_log (upload_file upload_report app0).1
    = [EvSave "uploads/Report.PDF"; EvUuid; EvRemove "uploads/Report.PDF"] /\
  log (sys (process (upload_file upload_report app0).1))
    = [EvPinecone; EvOpenAIEmbeddings; EvPineconeVectorStore "rag-documents";
       EvAddDocuments
         [{| page_content := "Quarterly figures.";
             metadata := {[ "source" := "Report.PDF"; "type" := "pdf" ]} |}]] /\
  disk (machine (upload_file upload_report app0).1) = [].
Proof.
  assert (Hfile : upload_report !! "file" = Some ("Report.PDF", "Quarterly figures."))
    by (vm_compute; reflexivity).
  assert (Hname : "Report.PDF" <> "") by (intros Heq; discriminate Heq).
  assert (Hallowed : allowed_file "Report.PDF" = true) by (vm_compute; reflexivity).
  split.
  - exact (proj1 (web_facts.upload_outcome (X := services) (L := small_texts) (H := host)
                    upload_report app0 _ _ Hfile Hname Hallowed)).
  - repeat split; vm_compute; reflexivity.
Defined.

(** X22: the script on the index with two namespaces. *)
Lemma script_run_witness :
  log (delete_pinecone.script (sys st0, [])).1.1
    = [EvPinecone; EvIndex "shopify-products"; EvDescribeIndexStats;
       EvDelete ""; EvDelete "archive"] /\
  (delete_pinecone.script (sys st0, [])).1.2
    = ["Connecting to Pinecone index: shopify-products";
       "Current vector count: 3";
       "Deleting all records...";
       "✓ All records deleted successfully!"] /\
  mem_index (ext (delete_pinecone.script (sys st0, [])).1.1) = [] /\
  _pinecone_client (delete_pinecone.script (sys st0, [])).1.1 = None.
Proof.
  assert (Hrun : delete_pinecone.script (sys st0, [])
                 = (((delete_pinecone.script (sys st0, [])).1.1,
                     (delete_pinecone.script (sys st0, [])).1.2), Ok tt))
    by (vm_compute; reflexivity).
  destruct (script_facts.script_run _ _ _ _ Hrun)
    as (w & pc & w1 & index & w2 & stats & w3 & Hpc & Hindex & Hstats & _
        & Hlog & Hout & Hclient & _).
  cbv zeta in Hindex, Hlog, Hout.
  vm_compute in Hpc. injection Hpc as <- <-.
  vm_compute in Hindex. injection Hindex as <- <-.
  vm_compute in Hstats. injection Hstats as _ <-.
  split; [rewrite Hlog; vm_compute; reflexivity|].
  split; [rewrite Hout; vm_compute; reflexivity|].
  split; [vm_compute; reflexivity|].
  rewrite Hclient. reflexivity.
Defined.

End working.

Section failing.
#[local] Existing Instance broken.
#[local] Existing Instance small_texts.
#[local] Existing Instance host.

(** X3: the store cannot be built. *)
Lemma failed_store_is_not_cached_witness :
  _vector_store (get_vector_store (sys (initial world0))).1 = None.
Proof.
  assert (Hr : get_vector_store (sys (initial world0))
               = ((get_vector_store (sys (initial world0))).1,
                  Raise (Exception "RetrievalBackendError")))
    by (vm_compute; reflexivity).
  exact (proj1 (proj2 (gateway_facts.failed_store_is_not_cached _ _ _ Hr))).
Defined.

(** X5: the statistics cannot be read. *)
Lemma no_delete_without_stats_witness :
  exists s',
    delete_all_records (sys (initial world0))
      = (s', Raise (Exception "RetrievalBackendError")) /\
    ext s' = world0 /\
    log s' = [EvPinecone; EvIndex "rag-documents"] ++ [EvDescribeIndexStats].
Proof.
  assert (Hpc : init_pinecone (sys (initial world0))
                = ((init_pinecone (sys (initial world0))).1, Ok tt))
    by (vm_compute; reflexivity).
  pose proof (gateway_facts.no_delete_without_stats (sys (initial world0))
                (init_pinecone (sys (initial world0))).1
                (call (EvIndex "rag-documents") (pc_Index tt "rag-documents")
                   (init_pinecone (sys (initial world0))).1).1
                tt tt (Exception "RetrievalBackendError") Hpc eq_refl) as [Hstats _].
  exact (Hstats world0 eq_refl).
Defined.

End failing.
End at_work.
